(** * Wedding Invitation API: the comment pipeline of [main.py]

    A shallow embedding of the two comment endpoints of the FastAPI
    application ([list_comments], [create_comment]) and of the spreadsheet
    forwarder ([forward_to_google_sheet]).

    The handlers talk to three collaborators: the process environment
    ([os.getenv]), the webhook ([requests.post]) and the document store
    ([create_document], [get_documents]).  Each of these calls is a node of
    a program tree ([prog]); running a tree against a [handler] gives the
    result, the final state of the collaborators and the list of calls that
    were made.  Python exceptions are explicit: a computation that can raise
    returns an [outcome]. *)

From stdpp Require Import base option list gmap strings pretty.
From Stdlib Require Import ZArith Lia.

Open Scope Z_scope.

(** ** Python values *)

(** The values found in a parsed JSON body, in keyword arguments and in a
    stored document.  [VOther] is any value that is none of the first four
    (a float, a list, a nested object, bytes, a BSON ObjectId, a datetime);
    it is identified by the text [str()] gives for it.

    A Python [str] is written as its UTF-8 encoding: a character is one
    byte that is not a continuation byte, followed by its continuation
    bytes. *)
Inductive value :=
| VNone
| VBool (b : bool)
| VInt (z : Z)
| VStr (s : string)
| VOther (repr : string).

#[global] Instance value_eq_dec : EqDecision value.
Proof. solve_decision. Defined.

(** A Python [dict] with string keys. *)
Abbreviation dict := (gmap string value).

(** [str(v)] *)
Definition py_str (v : value) : string :=
  match v with
  | VNone => "None"
  | VBool true => "True"
  | VBool false => "False"
  | VInt z => pretty z
  | VStr s => s
  | VOther repr => repr
  end.

(** [d.get(key)] and [d.get(key, default)] *)
Definition dict_get (d : dict) (key : string) (dflt : value) : value :=
  default dflt (d !! key).

(** A continuation byte of UTF-8: the two high bits are 1 and 0. *)
Definition is_continuation (c : Ascii.ascii) : bool :=
  match c with
  | Ascii.Ascii _ _ _ _ _ _ b6 b7 => b7 && negb b6
  end.

(** [len(s)]: the number of characters. *)
Fixpoint py_len (s : string) : nat :=
  match s with
  | EmptyString => 0%nat
  | String c s' => if is_continuation c then py_len s' else S (py_len s')
  end.

(** [s[:n]] on a string: the first [n] characters, each with its
    continuation bytes. *)
Fixpoint str_prefix (n : nat) (s : string) : string :=
  match s with
  | EmptyString => EmptyString
  | String c s' =>
      if is_continuation c then String c (str_prefix n s')
      else
        match n with
        | O => EmptyString
        | S n' => String c (str_prefix n' s')
        end
  end.

(** [not s] for an optional string: [None] and the empty string are falsy. *)
Definition falsy (o : option string) : bool :=
  match o with
  | None => true
  | Some s => bool_decide (s = "")
  end.

Definition of_opt_bool (o : option bool) : value :=
  match o with Some b => VBool b | None => VNone end.
Definition of_opt_int (o : option Z) : value :=
  match o with Some z => VInt z | None => VNone end.
Definition of_opt_str (o : option string) : value :=
  match o with Some s => VStr s | None => VNone end.

(** ** Exceptions *)

(** The kinds of field error pydantic reports. *)
Inductive err_type := Missing | StringType | BoolParsing | IntParsing.

(** One error per offending field: the field name and the kind. *)
Abbreviation field_errors := (list (string * err_type)).

(** What pydantic does with inputs that are not of the field's exact type is
    the library's business (its lax mode turns the string ["2"] into the
    integer 2, for instance, and decodes bytes given by keyword for a
    string field), as is the wording of its error messages.  The handlers
    are verified for every behaviour of the library that leaves a value of
    the exact type unchanged and takes no [None], boolean or integer for a
    string. *)
Class Pydantic := {
  lax_bool : value -> option bool;
  lax_int : value -> option Z;
  lax_str : value -> option string;
  error_text : string -> field_errors -> string;
  lax_bool_exact : forall b, lax_bool (VBool b) = Some b;
  lax_int_exact : forall z, lax_int (VInt z) = Some z;
  lax_str_exact : forall s, lax_str (VStr s) = Some s;
  lax_str_none : lax_str VNone = None;
  lax_str_bool : forall b, lax_str (VBool b) = None;
  lax_str_int : forall z, lax_str (VInt z) = None
}.

(** The strict library: only exact types are accepted. *)
Definition strict_bool (v : value) : option bool :=
  match v with VBool b => Some b | _ => None end.
Definition strict_int (v : value) : option Z :=
  match v with VInt z => Some z | _ => None end.
Definition strict_str (v : value) : option string :=
  match v with VStr s => Some s | _ => None end.

Definition plain_error_text (title : string) (errs : field_errors) : string :=
  pretty (length errs) +:+ " validation error for " +:+ title.

Definition strict_pydantic : Pydantic :=
  {| lax_bool := strict_bool;
     lax_int := strict_int;
     lax_str := strict_str;
     error_text := plain_error_text;
     lax_bool_exact := fun b => eq_refl;
     lax_int_exact := fun z => eq_refl;
     lax_str_exact := fun s => eq_refl;
     lax_str_none := eq_refl;
     lax_str_bool := fun b => eq_refl;
     lax_str_int := fun z => eq_refl |}.

Inductive exn :=
| ValidationError (title : string) (errors : field_errors)
| HTTPException (status_code : Z) (detail : string)
| Exception (msg : string).

(** [str(e)] *)
Definition str_exn `{Pydantic} (e : exn) : string :=
  match e with
  | ValidationError title errors => error_text title errors
  | HTTPException code detail => pretty code +:+ ": " +:+ detail
  | Exception msg => msg
  end.

Inductive outcome (A : Type) :=
| Returns (a : A)
| Raises (e : exn).
Arguments Returns {A} a.
Arguments Raises {A} e.

(** ** The models: [CommentIn], [CommentOut] and the domain schema *)

(** [class CommentIn(BaseModel)] *)
Record CommentIn := mkCommentIn {
  in_name : string;
  in_message : string;
  in_attending : option bool;
  in_guests : option Z;
  in_phone : option string
}.

(** [class CommentOut(CommentIn)] *)
Record CommentOut := mkCommentOut {
  out_id : option string;
  out_name : string;
  out_message : string;
  out_attending : option bool;
  out_guests : option Z;
  out_phone : option string
}.

(** The instances of the domain schema, [schemas.Comment]. *)
Record Comment := mkComment {
  name : string;
  message : string;
  attending : option bool;
  guests : option Z;
  phone : option string
}.

Section Validation.
Context `{Pydantic}.

(** A required [str] field of a JSON body: the key must be there and hold a
    string. *)
Definition required_str (d : dict) (key : string) : field_errors + string :=
  match d !! key with
  | None => inl [(key, Missing)]
  | Some (VStr s) => inr s
  | Some _ => inl [(key, StringType)]
  end.

(** An [Optional[T] = dflt] field: the default when the key is absent,
    [None] when it holds [None], and the converted value otherwise. *)
Definition optional_field {A} (conv : value -> option A) (ty : err_type)
    (dflt : option A) (d : dict) (key : string) : field_errors + option A :=
  match d !! key with
  | None => inr dflt
  | Some VNone => inr None
  | Some v =>
      match conv v with
      | Some a => inr (Some a)
      | None => inl [(key, ty)]
      end
  end.

Definition errors_of {A} (r : field_errors + A) : field_errors :=
  match r with inl errs => errs | inr _ => [] end.

(** The five fields of [CommentIn] in a JSON body, each validated on its
    own; pydantic reports the errors of all fields together. *)
Definition CommentIn_validate (d : dict) : field_errors + CommentIn :=
  let n := required_str d "name" in
  let m := required_str d "message" in
  let a := optional_field lax_bool BoolParsing None d "attending" in
  let g := optional_field lax_int IntParsing (Some 1) d "guests" in
  let p := optional_field strict_str StringType None d "phone" in
  match n, m, a, g, p with
  | inr n, inr m, inr a, inr g, inr p => inr (mkCommentIn n m a g p)
  | _, _, _, _, _ =>
      inl (errors_of n ++ errors_of m ++ errors_of a ++ errors_of g
           ++ errors_of p)%list
  end.

(** A required [str] field given by keyword: the key must be there and hold
    a value the library takes for a string. *)
Definition required_kwarg (d : dict) (key : string) : field_errors + string :=
  match d !! key with
  | None => inl [(key, Missing)]
  | Some v =>
      match lax_str v with
      | Some s => inr s
      | None => inl [(key, StringType)]
      end
  end.

(** The constructor of [CommentOut], called with keyword arguments: the
    fields of [CommentIn] and [id: Optional[str] = None]. *)
Definition CommentOut_init (kwargs : dict) : outcome CommentOut :=
  let n := required_kwarg kwargs "name" in
  let m := required_kwarg kwargs "message" in
  let a := optional_field lax_bool BoolParsing None kwargs "attending" in
  let g := optional_field lax_int IntParsing (Some 1) kwargs "guests" in
  let p := optional_field lax_str StringType None kwargs "phone" in
  let i := optional_field lax_str StringType None kwargs "id" in
  match n, m, a, g, p, i with
  | inr n, inr m, inr a, inr g, inr p, inr i =>
      Returns (mkCommentOut i n m a g p)
  | _, _, _, _, _, _ =>
      Raises (ValidationError "CommentOut"
                (errors_of n ++ errors_of m ++ errors_of a ++ errors_of g
                 ++ errors_of p ++ errors_of i)%list)
  end.

(** [comment.model_dump()] *)
Definition CommentIn_model_dump (c : CommentIn) : dict :=
  <["name" := VStr (in_name c)]>
  (<["message" := VStr (in_message c)]>
  (<["attending" := of_opt_bool (in_attending c)]>
  (<["guests" := of_opt_int (in_guests c)]>
  (<["phone" := of_opt_str (in_phone c)]> ∅)))).

(** Modelled from the spec: the domain schema [Comment] of [schemas.py],
    which is not among the sources.  Section 4.1: "given an untyped input
    record, produce a normalized Comment with guests defaulted to 1 if
    absent, attending/phone defaulted to absent, and reject (fail with a
    ValidationError) if name or message is missing or not a string". *)
Definition CommentSchema (kwargs : dict) : outcome Comment :=
  let n := required_str kwargs "name" in
  let m := required_str kwargs "message" in
  let a := optional_field lax_bool BoolParsing None kwargs "attending" in
  let g := optional_field lax_int IntParsing (Some 1) kwargs "guests" in
  let p := optional_field strict_str StringType None kwargs "phone" in
  match n, m, a, g, p with
  | inr n, inr m, inr a, inr g, inr p => Returns (mkComment n m a g p)
  | _, _, _, _, _ =>
      Raises (ValidationError "Comment"
                (errors_of n ++ errors_of m ++ errors_of a ++ errors_of g
                 ++ errors_of p)%list)
  end.

(** [validated.model_dump()] *)
Definition Comment_model_dump (c : Comment) : dict :=
  <["name" := VStr (name c)]>
  (<["message" := VStr (message c)]>
  (<["attending" := of_opt_bool (attending c)]>
  (<["guests" := of_opt_int (guests c)]>
  (<["phone" := of_opt_str (phone c)]> ∅)))).

End Validation.

(** ** Programs over the collaborators *)

(** [requests.Response], as far as the forwarder reads it. *)
Record Response := mkResponse {
  status_code : Z;
  text : string
}.

(** The calls that leave the process.  The index is the type of the answer;
    a call that can raise answers with an [outcome]. *)
Inductive call : Type -> Type :=
| os_getenv (key : string) : call (option string)
| requests_post (url : string) (json : dict) (timeout : Z)
    : call (outcome Response)
| create_document (collection_name : string) (data : Comment)
    : call (outcome string)
| get_documents (collection_name : string) (filter_dict : dict) (limit : Z)
    : call (outcome (list dict)).

Inductive prog (A : Type) : Type :=
| Ret (a : A)
| Call {X : Type} (c : call X) (k : X -> prog A).
Arguments Ret {A} a.
Arguments Call {A X} c k.

Fixpoint bind {A B} (m : prog A) (f : A -> prog B) : prog B :=
  match m with
  | Ret a => f a
  | Call c k => Call c (fun x => bind (k x) f)
  end.

(** A Python computation: a program that returns or raises. *)
Definition py (A : Type) : Type := prog (outcome A).

Definition py_ret {A} (a : A) : py A := Ret (Returns a).
Definition py_raise {A} (e : exn) : py A := Ret (Raises e).
Definition lift {A} (r : outcome A) : py A := Ret r.
Definition perform {A} (c : call (outcome A)) : py A := Call c Ret.

Definition py_bind {A B} (m : py A) (f : A -> py B) : py B :=
  bind m (fun r => match r with Returns a => f a | Raises e => Ret (Raises e) end).

(** [try: m  except Exception as e: on_exn e] *)
Definition try_except {A} (m : py A) (on_exn : exn -> py A) : py A :=
  bind m (fun r => match r with Returns a => Ret (Returns a) | Raises e => on_exn e end).

Notation "x <~ m ; k" := (py_bind m (fun x => k))
  (at level 100, m at next level, right associativity, only parsing).

(** ** The handlers of [main.py] *)

Section Handlers.
Context `{Pydantic}.

(** One pass of the loop body of [list_comments]: the keyword arguments
    handed to [CommentOut] for the stored document [d]. *)
Definition row_kwargs (d : dict) : dict :=
  <["id" := VStr (py_str (dict_get d "_id" VNone))]>
  (<["name" := dict_get d "name" (VStr "")]>
  (<["message" := dict_get d "message" (VStr "")]>
  (<["attending" := dict_get d "attending" VNone]>
  (<["guests" := dict_get d "guests" VNone]>
  (<["phone" := dict_get d "phone" VNone]> ∅))))).

(** [for d in docs: results.append(CommentOut(...))] *)
Fixpoint append_rows (docs : list dict) (results : list CommentOut)
    : outcome (list CommentOut) :=
  match docs with
  | [] => Returns results
  | d :: docs' =>
      match CommentOut_init (row_kwargs d) with
      | Returns row => append_rows docs' (results ++ [row])
      | Raises e => Raises e
      end
  end.

Definition list_comments (limit : Z) : py (list CommentOut) :=
  try_except
    (docs <~ perform (get_documents "comment" ∅ limit);
     lift (append_rows docs []))
    (fun e => py_raise (HTTPException 500 (str_exn e))).

(** The value of [url] when [not url] is false. *)
Definition configured (url : option string) : option string :=
  if falsy url then None else url.

Definition forward_to_google_sheet (payload : dict) : py dict :=
  Call (os_getenv "GOOGLE_APPS_SCRIPT_URL") (fun url =>
  match configured url with
  | None =>
      py_ret (<["forwarded" := VBool false]>
              (<["reason" := VStr "No GOOGLE_APPS_SCRIPT_URL configured"]> ∅))
  | Some url =>
      try_except
        (resp <~ perform (requests_post url payload 8);
         let ok := bool_decide (status_code resp ∈ [200; 201]) in
         py_ret (<["forwarded" := VBool ok]>
                 (<["status" := VInt (status_code resp)]>
                 (<["response" := VStr (str_prefix 200 (text resp))]> ∅))))
        (fun e =>
         py_ret (<["forwarded" := VBool false]>
                 (<["reason" := VStr (str_prefix 200 (str_exn e))]> ∅)))
  end).

(** The payload [create_comment] hands to the forwarder. *)
Definition sheet_payload (validated : Comment) : dict :=
  <["name" := VStr (name validated)]>
  (<["message" := VStr (message validated)]>
  (<["attending" := of_opt_bool (attending validated)]>
  (<["guests" := of_opt_int (guests validated)]>
  (<["phone" := of_opt_str (phone validated)]> ∅)))).

Definition create_comment (comment : CommentIn) : py CommentOut :=
  try_except
    (validated <~ lift (CommentSchema (CommentIn_model_dump comment));
     new_id <~ perform (create_document "comment" validated);
     sheet_meta <~ forward_to_google_sheet (sheet_payload validated);
     lift (CommentOut_init
             (<["id" := VStr new_id]> (Comment_model_dump validated))))
    (fun e => py_raise (HTTPException 400 (str_exn e))).

(** ** The routes *)

Inductive body :=
| JsonComment (c : CommentOut)
| JsonComments (l : list CommentOut)
| JsonDetail (detail : string)
| JsonErrors (errors : field_errors).

Record http_response := mkHttp {
  status : Z;
  content : body
}.

(** What FastAPI makes of the handler's result: 200 with the returned
    model, the status and detail of a raised [HTTPException], and 500 for
    any other exception. *)
Definition respond {A} (to_body : A -> body) (m : py A) : prog http_response :=
  bind m (fun r =>
    match r with
    | Returns a => Ret (mkHttp 200 (to_body a))
    | Raises (HTTPException code detail) => Ret (mkHttp code (JsonDetail detail))
    | Raises _ => Ret (mkHttp 500 (JsonDetail "Internal Server Error"))
    end).

(** [@app.post("/api/comments")]: the JSON body is validated against
    [CommentIn] before the handler runs; a body that fails is answered
    with 422 and the handler is not called. *)
Definition POST_api_comments (json_body : dict) : prog http_response :=
  match CommentIn_validate json_body with
  | inr comment => respond JsonComment (create_comment comment)
  | inl errors => Ret (mkHttp 422 (JsonErrors errors))
  end.

(** [@app.get("/api/comments")] with [limit: int = 50]. *)
Definition GET_api_comments (limit : option Z) : prog http_response :=
  respond JsonComments (list_comments (default 50 limit)).

End Handlers.

(** ** Running a program *)

(** The collaborators: for each call, an answer and a new state. *)
Definition handler (W : Type) : Type := forall X, call X -> W -> X * W.

(** A call that was made, with the answer it got. *)
Inductive event :=
| Event {X : Type} (c : call X) (answer : X).

Fixpoint run {W A} (h : handler W) (p : prog A) (w : W) : A * W * list event :=
  match p with
  | Ret a => (a, w, [])
  | Call c k =>
      let '(x, w') := h _ c w in
      let '(a, w'', calls) := run h (k x) w' in
      (a, w'', Event c x :: calls)
  end.

Definition result {W A} (r : A * W * list event) : A := r.1.1.
Definition final {W A} (r : A * W * list event) : W := r.1.2.
Definition calls {W A} (r : A * W * list event) : list event := r.2.

Definition is_post (e : event) : bool :=
  match e with Event (requests_post _ _ _) _ => true | _ => false end.
Definition is_create (e : event) : bool :=
  match e with Event (create_document _ _) _ => true | _ => false end.
Definition is_getenv (e : event) : bool :=
  match e with Event (os_getenv _) _ => true | _ => false end.

(** The number of calls of a kind in a list of calls. *)
Definition count (p : event -> bool) (l : list event) : nat :=
  length (List.filter p l).

(** ** Collaborators in memory *)

(** A world to run the handlers in: the environment variables, what the
    webhook does with a POST, and a document store that is up or down and
    keeps its documents, with their collection, in insertion order. *)
Record world := mkWorld {
  environ : gmap string string;
  webhook : string -> dict -> Z -> outcome Response;
  store_up : bool;
  stored : list (string * dict)
}.

Definition store_down : exn := Exception "Database not available".

(** Modelled from the spec: the document store adapter [database.py], which
    is not among the sources.  Section 6: "create_document(collection_name,
    record) -> id; get_documents(collection_name, filter, limit) -> ordered
    list of records"; section 3: the id is an "opaque string identifier,
    assigned by the store on creation" and "insertion order is preserved by
    the store".  The n-th document gets the decimal numeral of n as its id. *)
Definition store_insert (collection_name : string) (data : Comment) (w : world)
    : outcome string * world :=
  if store_up w then
    let new_id := pretty (length (stored w)) in
    let doc := <["_id" := VOther new_id]> (Comment_model_dump data) in
    (Returns new_id,
     mkWorld (environ w) (webhook w) (store_up w)
       (stored w ++ [(collection_name, doc)]))
  else (Raises store_down, w).

Definition matches (filter_dict d : dict) : bool :=
  bool_decide (map_Forall (fun k v => d !! k = Some v) filter_dict).

Definition store_find (collection_name : string) (filter_dict : dict)
    (limit : Z) (w : world) : outcome (list dict) * world :=
  if store_up w then
    let found :=
      List.filter (fun cd => bool_decide (cd.1 = collection_name)
                             && matches filter_dict cd.2) (stored w) in
    (Returns (take (Z.to_nat limit) (snd <$> found)), w)
  else (Raises store_down, w).

Definition in_memory : handler world :=
  fun X (c : call X) (w : world) =>
    match c in call X return X * world with
    | os_getenv key => (environ w !! key, w)
    | requests_post url json timeout => (webhook w url json timeout, w)
    | create_document collection_name data => store_insert collection_name data w
    | get_documents collection_name filter_dict limit =>
        store_find collection_name filter_dict limit w
    end.

Definition alice : dict :=
  <["name" := VStr "Alice"]>
  (<["message" := VStr "See you there!"]>
  (<["attending" := VBool true]>
  (<["guests" := VInt 2]> ∅))).

Definition quiet : world :=
  mkWorld ∅ (fun _ _ _ => Raises (Exception "unreachable")) true [].

(** The handler [h] with the webhook replaced: the environment variable
    holds [url] (or is unset) and every POST gets [answer]. *)
Definition with_webhook {W} (url : option string) (answer : outcome Response)
    (h : handler W) : handler W :=
  fun X (c : call X) (w : W) =>
    match c in call X return X * W with
    | os_getenv key =>
        if bool_decide (key = "GOOGLE_APPS_SCRIPT_URL") then (url, w)
        else h _ (os_getenv key) w
    | requests_post _ _ _ => (answer, w)
    | c => h _ c w
    end.

(** The collaborators in memory with a store that fails on every read and
    works for writes. *)
Definition reads_fail : handler world :=
  fun X (c : call X) (w : world) =>
    match c in call X return X * world with
    | get_documents _ _ _ => (Raises store_down, w)
    | c => in_memory _ c w
    end.

(** ** Sample bodies and worlds *)

(** What validation makes of the body [alice]. *)
Definition alice_in : CommentIn :=
  mkCommentIn "Alice" "See you there!" (Some true) (Some 2) None.

(** A body without a name. *)
Definition no_name : dict := <["message" := VStr "no name"]> ∅.

(** The body with an empty name and an empty message. *)
Definition nameless : dict := <["name" := VStr ""]> (<["message" := VStr ""]> ∅).

(** A world whose store is down. *)
Definition offline : world :=
  mkWorld ∅ (fun _ _ _ => Raises (Exception "unreachable")) false [].

(** A world with a webhook that answers every POST with a 500. *)
Definition hooked : world :=
  mkWorld (<["GOOGLE_APPS_SCRIPT_URL" := "https://script.example/exec"]> ∅)
    (fun _ _ _ => Returns (mkResponse 500 "Internal error")) true [].

(** A world whose store holds one document without a message. *)
Definition populated : world :=
  mkWorld ∅ (fun _ _ _ => Raises (Exception "unreachable")) true
    [("comment", <["_id" := VOther "65f0c0ffee"]> (<["name" := VStr "Bob"]> ∅))].

(** * The vocabulary of the properties *)

(** A field that is there and holds a string. *)
Definition is_string (field : option value) : bool :=
  match field with Some (VStr _) => true | _ => false end.

(** The domain instance with the fields of a transport instance. *)
Definition schema_of (c : CommentIn) : Comment :=
  mkComment (in_name c) (in_message c) (in_attending c) (in_guests c)
    (in_phone c).

(** The response model with the fields of a domain instance. *)
Definition out_of (new_id : string) (v : Comment) : CommentOut :=
  mkCommentOut (Some new_id) (name v) (message v) (attending v) (guests v)
    (phone v).

(** The record the forwarder returns for what the webhook answered. *)
Definition sheet_meta_of `{Pydantic} (answer : outcome Response) : dict :=
  match answer with
  | Returns resp =>
      <["forwarded" := VBool (bool_decide (status_code resp ∈ [200; 201]))]>
      (<["status" := VInt (status_code resp)]>
      (<["response" := VStr (str_prefix 200 (text resp))]> ∅))
  | Raises e =>
      <["forwarded" := VBool false]>
      (<["reason" := VStr (str_prefix 200 (str_exn e))]> ∅)
  end.

(** What a JSON body submits for an optional field, and what comes back:
    the default when the key is left out, and otherwise the value itself
    ([null] for an absent value). *)
Definition submitted {A} (to_value : option A -> value) (dflt : option A)
    (field : option value) (echoed : option A) : Prop :=
  match field with
  | None => echoed = dflt
  | Some v => v = to_value echoed
  end.

(** A text that is empty or starts with the first byte of a character. *)
Definition starts_char (s : string) : bool :=
  match s with
  | EmptyString => true
  | String c _ => negb (is_continuation c)
  end.

(** [shown] is the text [s] cut after [n] characters: a piece of [s] from
    its start, that ends where a character ends, and that has [n]
    characters, or all of them when [s] has fewer.  (There is one such
    piece, [first_chars_unique].) *)
Definition first_chars (n : nat) (s shown : string) : Prop :=
  exists rest,
    s = shown +:+ rest
    /\ py_len shown = min n (py_len s)
    /\ starts_char rest = true.

(** The store takes the record in the state [w]. *)
Definition accepts {W} (h : handler W) (w : W) (data : Comment) : Prop :=
  exists new_id, (h _ (create_document "comment" data) w).1 = Returns new_id.

(** A field that is there and that the conversion of its type turns down
    ([None] too: the field is not optional). *)
Definition refused {A} (conv : value -> option A) (field : option value)
    : bool :=
  match field with
  | None => false
  | Some v => bool_decide (conv v = None :> option A)
  end.

(** What the record returned by the forwarder says about the answer of the
    webhook. *)
Definition reports `{Pydantic} (answer : outcome Response) (meta : dict) : Prop :=
  match answer with
  | Returns resp =>
      meta !! "status" = Some (VInt (status_code resp))
      /\ (exists body_text,
            meta !! "response" = Some (VStr body_text)
            /\ first_chars 200 (text resp) body_text)
      /\ meta !! "forwarded"
         = Some (VBool (bool_decide (status_code resp = 200
                                     \/ status_code resp = 201)))
  | Raises e =>
      meta !! "forwarded" = Some (VBool false)
      /\ exists reason,
           meta !! "reason" = Some (VStr reason)
           /\ first_chars 200 (str_exn e) reason
  end.

(** The fields of a stored document have the types the models declare: a
    string (or nothing) for name and message, and a value of the field's
    type, [None] or nothing for the optional fields. *)
Definition typed_as (to_value : value -> bool) (field : option value) : bool :=
  match field with
  | None => true
  | Some v => to_value v
  end.

Definition is_str (v : value) : bool :=
  match v with VStr _ => true | _ => false end.
Definition is_opt_bool (v : value) : bool :=
  match v with VNone | VBool _ => true | _ => false end.
Definition is_opt_int (v : value) : bool :=
  match v with VNone | VInt _ => true | _ => false end.
Definition is_opt_str (v : value) : bool :=
  match v with VNone | VStr _ => true | _ => false end.

Definition well_typed (d : dict) : bool :=
  typed_as is_str (d !! "name") && typed_as is_str (d !! "message")
  && typed_as is_opt_bool (d !! "attending")
  && typed_as is_opt_int (d !! "guests")
  && typed_as is_opt_str (d !! "phone").

(** The row the listing shows for a stored document, in the words of the
    specification: the id is the stringified [_id], a missing name or
    message is the empty string, a missing optional field is absent, and a
    field that is there is shown as it is. *)
Definition shows (d : dict) (row : CommentOut) : Prop :=
  out_id row = Some (py_str (dict_get d "_id" VNone))
  /\ match d !! "name" with
     | None => out_name row = ""
     | Some v => v = VStr (out_name row)
     end
  /\ match d !! "message" with
     | None => out_message row = ""
     | Some v => v = VStr (out_message row)
     end
  /\ match d !! "attending" with
     | None => out_attending row = None
     | Some v => v = of_opt_bool (out_attending row)
     end
  /\ match d !! "guests" with
     | None => out_guests row = None
     | Some v => v = of_opt_int (out_guests row)
     end
  /\ match d !! "phone" with
     | None => out_phone row = None
     | Some v => v = of_opt_str (out_phone row)
     end.

(** The store never hands out the empty string as an id. *)
Definition assigns_nonempty_ids {W} (h : handler W) : Prop :=
  forall collection_name data w new_id,
    (h _ (create_document collection_name data) w).1 = Returns new_id ->
    new_id <> "".

(** The store never hands out an id twice: [issued] lists the ids given out
    so far, no call takes one away, and a new id is not among them. *)
Definition assigns_fresh_ids {W} (h : handler W) (issued : W -> list string)
    : Prop :=
  (forall X (c : call X) w, issued w ⊆ issued (h X c w).2)
  /\ (forall collection_name data w new_id,
        (h _ (create_document collection_name data) w).1 = Returns new_id ->
        (new_id ∉ issued w)
        /\ (new_id ∈ issued (h _ (create_document collection_name data) w).2)).

(** The ids of the store in memory. *)
Definition issued_ids (w : world) : list string :=
  (fun n : nat => pretty n) <$> seq 0 (length (stored w)).

(** * The diagnostic route and more vocabulary *)

(** ** [test_database] *)

(** The values of the diagnostic report: [None], a string, whatever
    [db.name] is, and a list. *)
Inductive diag :=
| DNone
| DStr (s : string)
| DVal (v : value)
| DList (l : list value).

(** The [db] object of the database module, as far as [test_database] looks
    at it: its [name] attribute, when it has one, and what
    [list_collection_names()] does. *)
Record Database := mkDatabase {
  db_name : option value;
  list_collection_names : outcome (list value)
}.

(** What [from database import db] does: it raises [ImportError], it raises
    another exception, or it binds [db], which may be [None]. *)
Inductive import_db :=
| ImportError
| ImportRaises (e : exn)
| Imported (db : option Database).

(** What [test_database] finds around it: the import and the environment
    variables. *)
Record surroundings := mkSurroundings {
  import_database : import_db;
  getenv : string -> option string
}.

(** ["✅ Set" if os.getenv(key) else "❌ Not Set"] *)
Definition set_or_not (s : surroundings) (key : string) : diag :=
  if falsy (getenv s key) then DStr "❌ Not Set" else DStr "✅ Set".

Definition test_database `{Pydantic} (s : surroundings) : gmap string diag :=
  let response : gmap string diag :=
    <["backend" := DStr "✅ Running"]>
    (<["database" := DStr "❌ Not Available"]>
    (<["database_url" := DNone]>
    (<["database_name" := DNone]>
    (<["connection_status" := DStr "Not Connected"]>
    (<["collections" := DList []]> ∅))))) in
  let response :=
    match import_database s with
    | Imported (Some db) =>
        let response := <["database" := DStr "✅ Available"]> response in
        let response := <["database_url" := DStr "✅ Configured"]> response in
        let response :=
          <["database_name" :=
              match db_name db with
              | Some n => DVal n
              | None => DStr "✅ Connected"
              end]> response in
        let response := <["connection_status" := DStr "Connected"]> response in
        match list_collection_names db with
        | Returns collections =>
            let response :=
              <["collections" := DList (take 10 collections)]> response in
            <["database" := DStr "✅ Connected & Working"]> response
        | Raises e =>
            <["database" :=
                DStr ("⚠️  Connected but Error: "
                      +:+ str_prefix 50 (str_exn e))]> response
        end
    | Imported None =>
        <["database" := DStr "⚠️  Available but not initialized"]> response
    | ImportError =>
        <["database" :=
            DStr "❌ Database module not found (run enable-database first)"]>
          response
    | ImportRaises e =>
        <["database" := DStr ("❌ Error: " +:+ str_prefix 50 (str_exn e))]>
          response
    end in
  let response := <["database_url" := set_or_not s "DATABASE_URL"]> response in
  let response := <["database_name" := set_or_not s "DATABASE_NAME"]> response in
  <["apps_script_url" := set_or_not s "GOOGLE_APPS_SCRIPT_URL"]> response.

(** ** More vocabulary *)

Definition is_get (e : event) : bool :=
  match e with Event (get_documents _ _ _) _ => true | _ => false end.

(** The fields [CommentIn] declares. *)
Definition comment_fields : list string :=
  ["name"; "message"; "attending"; "guests"; "phone"].

(** An optional field that is there, is not [None], and that the conversion
    of its type turns down. *)
Definition turned_down {A} (conv : value -> option A) (field : option value)
    : bool :=
  match field with
  | None | Some VNone => false
  | Some v => bool_decide (conv v = None :> option A)
  end.

(** The stored document [d] holds the comment [v] under the id [stored_id]:
    its [_id] is [stored_id] and its five comment fields are those
    [model_dump] gives for [v]; what else it holds does not matter. *)
Definition holds (d : dict) (stored_id : value) (v : Comment) : Prop :=
  d !! "_id" = Some stored_id
  /\ Forall (fun key => d !! key = Comment_model_dump v !! key) comment_fields.

(** A surrounding in which the database is connected and lists its
    collections. *)
Definition connected (names : list value) : surroundings :=
  mkSurroundings
    (Imported (Some (mkDatabase (Some (VStr "wedding")) (Returns names))))
    (fun key => if bool_decide (key = "DATABASE_URL")
                then Some "mongodb://localhost" else None).

(** A surrounding in which listing the collections fails. *)
Definition unreachable (msg : string) : surroundings :=
  mkSurroundings
    (Imported (Some (mkDatabase (Some (VStr "wedding"))
                       (Raises (Exception msg)))))
    (fun _ => None).

(** A stored document that holds Alice's comment and a creation date. *)
Definition alice_doc : dict :=
  <["_id" := VOther "65f0c0ffee"]>
  (<["created_at" := VOther "2024-03-12 10:00:00"]>
  (Comment_model_dump (mkComment "Alice" "See you there!" (Some true)
                         (Some 2) None))).

(** A stored document whose name is [None]. *)
Definition null_name_doc : dict :=
  <["_id" := VOther "65f0c0ffef"]> (<["name" := VNone]> ∅).

(** A world whose store holds Alice's comment. *)
Definition archive : world :=
  mkWorld ∅ (fun _ _ _ => Raises (Exception "unreachable")) true
    [("comment", alice_doc)].

(** A world whose store holds Alice's comment and a document whose name is
    [None]. *)
Definition spoiled : world :=
  mkWorld ∅ (fun _ _ _ => Raises (Exception "unreachable")) true
    [("comment", alice_doc); ("comment", null_name_doc)].

(** [n] copies of a text, one after the other. *)
Fixpoint copies (n : nat) (s : string) : string :=
  match n with
  | O => EmptyString
  | S n' => s +:+ copies n' s
  end.

(** A world with a webhook that answers every POST with 200 and a hundred
    check marks: 100 characters in 300 bytes. *)
Definition cheerful : world :=
  mkWorld (<["GOOGLE_APPS_SCRIPT_URL" := "https://script.example/exec"]> ∅)
    (fun _ _ _ => Returns (mkResponse 200 (copies 100 "✅"))) true [].

(** A body with a phone number that is not a string. *)
Definition numeric_phone : dict := <["phone" := VInt 5550100]> alice.

(** * Properties *)

(** ** Strings *)

(** The code's cut is the cut after [n] characters. *)
Lemma str_prefix_first_chars (n : nat) (s : string) :
  first_chars n s (str_prefix n s).
Proof.
  unfold first_chars. revert n.
  induction s as [|c s IH]; intros n.
  - exists "". simpl. by rewrite Nat.min_0_r.
  - cbn [str_prefix py_len]. destruct (is_continuation c) eqn:Hc.
    + destruct (IH n) as (rest & Hrest & Hlen & Hstart).
      exists rest. cbn [py_len]. rewrite Hc.
      split; [|done]. rewrite Hrest at 1. reflexivity.
    + destruct n as [|n].
      * exists (String c s). simpl. by rewrite Hc.
      * destruct (IH n) as (rest & Hrest & Hlen & Hstart).
        exists rest. cbn [py_len]. rewrite Hc, Hlen.
        split; [|done]. rewrite Hrest at 1. reflexivity.
Qed.

(** Two pieces of one text with as many characters, each ending where a
    character ends, are the same piece. *)
Lemma same_cut (a b ra rb : string) :
  a +:+ ra = b +:+ rb ->
  py_len a = py_len b ->
  starts_char ra = true -> starts_char rb = true ->
  a = b.
Proof.
  revert b. induction a as [|c a IH]; intros [|c' b] Heq Hlen Ha Hb.
  - done.
  - change (ra = String c' (b +:+ rb)) in Heq. subst ra.
    simpl in Ha, Hlen. apply negb_true_iff in Ha. rewrite Ha in Hlen.
    discriminate.
  - change (String c (a +:+ ra) = rb) in Heq. subst rb.
    simpl in Hb, Hlen. apply negb_true_iff in Hb. rewrite Hb in Hlen.
    discriminate.
  - change (String c (a +:+ ra) = String c' (b +:+ rb)) in Heq.
    injection Heq as <- Heq. f_equal. apply IH; try done.
    simpl in Hlen. destruct (is_continuation c); congruence.
Qed.

Lemma first_chars_unique (n : nat) (s a b : string) :
  first_chars n s a -> first_chars n s b -> a = b.
Proof.
  intros (ra & Ha & Hlena & Hsa) (rb & Hb & Hlenb & Hsb).
  apply (same_cut a b ra rb); congruence.
Qed.

(** A text of [n] characters at most is kept whole. *)
Lemma str_prefix_short (n : nat) (s : string) :
  (py_len s <= n)%nat -> str_prefix n s = s.
Proof.
  revert n. induction s as [|c s IH]; intros n Hlen; simpl in *; [done|].
  destruct (is_continuation c).
  - f_equal. by apply IH.
  - destruct n as [|n]; [lia|]. f_equal. apply IH. lia.
Qed.

(** ** Validation *)

Section ValidationFacts.
Context `{Pydantic}.

Lemma required_str_inr (d : dict) (key s : string) :
  required_str d key = inr s <-> d !! key = Some (VStr s).
Proof.
  unfold required_str. destruct (d !! key) as [[]|]; naive_solver.
Qed.

Lemma required_str_inl (d : dict) (key : string) :
  is_string (d !! key) = false <->
  exists errs, required_str d key = inl errs.
Proof.
  unfold required_str, is_string.
  destruct (d !! key) as [[]|]; split; try done; eauto; by intros [? ?].
Qed.

Lemma optional_bool_exact (d : dict) (key : string) (dflt a : option bool) :
  d !! key = Some (of_opt_bool a) ->
  optional_field lax_bool BoolParsing dflt d key = inr a.
Proof.
  unfold optional_field. intros ->.
  destruct a as [b|]; simpl; [by rewrite lax_bool_exact | done].
Qed.

Lemma optional_int_exact (d : dict) (key : string) (dflt g : option Z) :
  d !! key = Some (of_opt_int g) ->
  optional_field lax_int IntParsing dflt d key = inr g.
Proof.
  unfold optional_field. intros ->.
  destruct g as [z|]; simpl; [by rewrite lax_int_exact | done].
Qed.

Lemma optional_str_exact (d : dict) (key : string) (dflt p : option string) :
  d !! key = Some (of_opt_str p) ->
  optional_field strict_str StringType dflt d key = inr p.
Proof.
  unfold optional_field. intros ->. by destruct p.
Qed.

Lemma required_kwarg_exact (d : dict) (key s : string) :
  d !! key = Some (VStr s) -> required_kwarg d key = inr s.
Proof. unfold required_kwarg. intros ->. by rewrite lax_str_exact. Qed.

Lemma optional_kwarg_str_exact (d : dict) (key : string)
    (dflt p : option string) :
  d !! key = Some (of_opt_str p) ->
  optional_field lax_str StringType dflt d key = inr p.
Proof.
  unfold optional_field. intros ->.
  destruct p as [s|]; simpl; [by rewrite lax_str_exact | done].
Qed.

Lemma optional_field_absent {A} (conv : value -> option A) ty dflt
    (d : dict) (key : string) :
  d !! key = None -> optional_field conv ty dflt d key = inr dflt.
Proof. unfold optional_field. by intros ->. Qed.

(** A body whose name or message is not a string fails validation. *)
Lemma CommentIn_validate_rejects (d : dict) :
  is_string (d !! "name") = false \/ is_string (d !! "message") = false ->
  exists errs, CommentIn_validate d = inl errs.
Proof.
  intros Hbad. unfold CommentIn_validate.
  destruct Hbad as [Hn|Hm].
  - apply required_str_inl in Hn as [errs ->]. eauto.
  - apply required_str_inl in Hm as [errs ->].
    destruct (required_str d "name"); eauto.
Qed.

(** The domain schema accepts what a transport instance dumps, and keeps
    every field. *)
Lemma CommentSchema_model_dump (c : CommentIn) :
  CommentSchema (CommentIn_model_dump c) = Returns (schema_of c).
Proof.
  unfold CommentSchema, CommentIn_model_dump.
  rewrite (proj2 (required_str_inr _ "name" (in_name c))) by done.
  rewrite (proj2 (required_str_inr _ "message" (in_message c))) by done.
  rewrite (optional_bool_exact _ "attending" None (in_attending c)) by done.
  rewrite (optional_int_exact _ "guests" (Some 1) (in_guests c)) by done.
  rewrite (optional_str_exact _ "phone" None (in_phone c)) by done.
  done.
Qed.

(** The response model accepts the dump of a domain instance with an id. *)
Lemma CommentOut_init_model_dump (new_id : string) (v : Comment) :
  CommentOut_init (<["id" := VStr new_id]> (Comment_model_dump v))
  = Returns (out_of new_id v).
Proof.
  unfold CommentOut_init, Comment_model_dump.
  rewrite (required_kwarg_exact _ "name" (name v)) by done.
  rewrite (required_kwarg_exact _ "message" (message v)) by done.
  rewrite (optional_bool_exact _ "attending" None (attending v)) by done.
  rewrite (optional_int_exact _ "guests" (Some 1) (guests v)) by done.
  rewrite (optional_kwarg_str_exact _ "phone" None (phone v)) by done.
  rewrite (optional_kwarg_str_exact _ "id" None (Some new_id)) by done.
  done.
Qed.

End ValidationFacts.

(** ** Running the handlers *)

Lemma run_bind {W A B} (h : handler W) (m : prog A) (f : A -> prog B) (w : W) :
  run h (bind m f) w =
  let r1 := run h m w in
  let r2 := run h (f (result r1)) (final r1) in
  (result r2, final r2, calls r1 ++ calls r2).
Proof.
  unfold result, final, calls.
  revert w. induction m as [a|X c k IH]; intros w; simpl.
  - by destruct (run h (f a) w) as [[b w2] t2].
  - destruct (h X c w) as [x w1]. rewrite IH.
    by destruct (run h (k x) w1) as [[a w2] t1].
Qed.

Section RunFacts.
Context {W : Type} (h : handler W).

Lemma run_lift {A} (r : outcome A) (w : W) : run h (lift r) w = (r, w, []).
Proof. done. Qed.

Lemma run_perform {A} (c : call (outcome A)) (w : W) :
  run h (perform c) w = ((h _ c w).1, (h _ c w).2, [Event c (h _ c w).1]).
Proof. simpl. by destruct (h _ c w). Qed.

Lemma run_py_bind_returns {A B} (m : py A) (f : A -> py B) (w : W) (a : A) :
  result (run h m w) = Returns a ->
  run h (py_bind m f) w =
  (result (run h (f a) (final (run h m w))),
   final (run h (f a) (final (run h m w))),
   calls (run h m w) ++ calls (run h (f a) (final (run h m w)))).
Proof. intros Hm. unfold py_bind. rewrite run_bind. simpl. by rewrite Hm. Qed.

Lemma run_py_bind_raises {A B} (m : py A) (f : A -> py B) (w : W) (e : exn) :
  result (run h m w) = Raises e ->
  run h (py_bind m f) w = (Raises e, final (run h m w), calls (run h m w)).
Proof.
  intros Hm. unfold py_bind. rewrite run_bind. simpl. rewrite Hm. simpl.
  by rewrite app_nil_r.
Qed.

Lemma run_try_except_returns {A} (m : py A) (on_exn : exn -> py A) (w : W)
    (a : A) :
  result (run h m w) = Returns a ->
  run h (try_except m on_exn) w = (Returns a, final (run h m w), calls (run h m w)).
Proof.
  intros Hm. unfold try_except. rewrite run_bind. simpl. rewrite Hm. simpl.
  by rewrite app_nil_r.
Qed.

Lemma run_try_except_raises {A} (m : py A) (on_exn : exn -> py A) (w : W)
    (e : exn) :
  result (run h m w) = Raises e ->
  run h (try_except m on_exn) w =
  (result (run h (on_exn e) (final (run h m w))),
   final (run h (on_exn e) (final (run h m w))),
   calls (run h m w) ++ calls (run h (on_exn e) (final (run h m w)))).
Proof. intros Hm. unfold try_except. rewrite run_bind. simpl. by rewrite Hm. Qed.

End RunFacts.

Section HandlerFacts.
Context `{Pydantic} {W : Type} (h : handler W).

(** No URL: the environment is read and nothing else happens. *)
Lemma run_forward_skipped (payload : dict) (w w1 : W) (url : option string) :
  h _ (os_getenv "GOOGLE_APPS_SCRIPT_URL") w = (url, w1) ->
  falsy url = true ->
  run h (forward_to_google_sheet payload) w =
  (Returns (<["forwarded" := VBool false]>
            (<["reason" := VStr "No GOOGLE_APPS_SCRIPT_URL configured"]> ∅)),
   w1, [Event (os_getenv "GOOGLE_APPS_SCRIPT_URL") url]).
Proof.
  intros Henv Hfalsy. simpl. rewrite Henv.
  unfold configured. rewrite Hfalsy. done.
Qed.

(** A URL: the environment is read, one POST is made, and its answer is
    turned into a record. *)
Lemma run_forward_posted (payload : dict) (w w1 w2 : W) (url : string)
    (answer : outcome Response) :
  h _ (os_getenv "GOOGLE_APPS_SCRIPT_URL") w = (Some url, w1) ->
  url <> "" ->
  h _ (requests_post url payload 8) w1 = (answer, w2) ->
  run h (forward_to_google_sheet payload) w =
  (Returns (sheet_meta_of answer), w2,
   [Event (os_getenv "GOOGLE_APPS_SCRIPT_URL") (Some url);
    Event (requests_post url payload 8) answer]).
Proof.
  intros Henv Hurl Hpost. simpl. rewrite Henv.
  unfold configured, falsy. rewrite bool_decide_eq_false_2 by done.
  simpl. rewrite Hpost. by destruct answer.
Qed.

(** The forwarder returns; it never raises. *)
Lemma forward_returns (payload : dict) (w : W) :
  exists meta, result (run h (forward_to_google_sheet payload) w) = Returns meta.
Proof.
  destruct (h _ (os_getenv "GOOGLE_APPS_SCRIPT_URL") w) as [url w1] eqn:Henv.
  destruct (falsy url) eqn:Hfalsy.
  - erewrite run_forward_skipped by done. eauto.
  - destruct url as [url|]; [|done].
    apply bool_decide_eq_false in Hfalsy.
    destruct (h _ (requests_post url payload 8) w1) as [answer w2] eqn:Hpost.
    rewrite (run_forward_posted payload w w1 w2 url answer Henv Hfalsy Hpost).
    eauto.
Qed.

(** [create_comment] when the store returns an id: the forwarder runs next,
    and the response model is built from the id and the validated fields. *)
Lemma run_create_comment_persisted (c : CommentIn) (w w1 : W) (new_id : string) :
  h _ (create_document "comment" (schema_of c)) w = (Returns new_id, w1) ->
  let fwd := run h (forward_to_google_sheet (sheet_payload (schema_of c))) w1 in
  run h (create_comment c) w =
  (Returns (out_of new_id (schema_of c)), final fwd,
   Event (create_document "comment" (schema_of c)) (Returns new_id) :: calls fwd).
Proof.
  intros Hstore fwd.
  destruct (forward_returns (sheet_payload (schema_of c)) w1) as [meta Hmeta].
  fold fwd in Hmeta.
  unfold create_comment. rewrite CommentSchema_model_dump.
  match goal with |- run h (try_except ?m _) w = _ => set (try_body := m) end.
  assert (Htry : run h try_body w =
    (Returns (out_of new_id (schema_of c)), final fwd,
     Event (create_document "comment" (schema_of c)) (Returns new_id)
     :: calls fwd)).
  { unfold try_body.
    rewrite (run_py_bind_returns h _ _ w (schema_of c)) by done.
    rewrite run_lift. cbn [final calls fst snd app].
    rewrite (run_py_bind_returns h _ _ w new_id)
      by (by rewrite run_perform, Hstore).
    rewrite run_perform, Hstore. cbn [final calls fst snd app].
    rewrite (run_py_bind_returns h _ _ w1 meta) by done.
    fold fwd. rewrite run_lift, CommentOut_init_model_dump.
    cbn [result final calls fst snd]. by rewrite app_nil_r. }
  rewrite (run_try_except_returns h _ _ w (out_of new_id (schema_of c)))
    by (by rewrite Htry).
  by rewrite Htry.
Qed.

(** [create_comment] when the store raises: nothing else is called and the
    exception becomes a 400. *)
Lemma run_create_comment_store_raises (c : CommentIn) (w w1 : W) (e : exn) :
  h _ (create_document "comment" (schema_of c)) w = (Raises e, w1) ->
  run h (create_comment c) w =
  (Raises (HTTPException 400 (str_exn e)), w1,
   [Event (create_document "comment" (schema_of c)) (Raises e)]).
Proof.
  intros Hstore. unfold create_comment. rewrite CommentSchema_model_dump.
  match goal with |- run h (try_except ?m _) w = _ => set (try_body := m) end.
  assert (Htry : run h try_body w =
    (Raises e, w1,
     [Event (create_document "comment" (schema_of c)) (Raises e)])).
  { unfold try_body.
    rewrite (run_py_bind_returns h _ _ w (schema_of c)) by done.
    rewrite run_lift. cbn [final calls fst snd app].
    rewrite (run_py_bind_raises h _ _ w e) by (by rewrite run_perform, Hstore).
    by rewrite run_perform, Hstore. }
  rewrite (run_try_except_raises h _ _ w e) by (by rewrite Htry).
  by rewrite Htry.
Qed.

End HandlerFacts.

(** ** The routes, run *)

Section RouteFacts.
Context `{Pydantic} {W : Type} (h : handler W).

Lemma run_respond {A} (to_body : A -> body) (m : py A) (w : W) :
  run h (respond to_body m) w =
  (match result (run h m w) with
   | Returns a => mkHttp 200 (to_body a)
   | Raises (HTTPException code detail) => mkHttp code (JsonDetail detail)
   | Raises _ => mkHttp 500 (JsonDetail "Internal Server Error")
   end, final (run h m w), calls (run h m w)).
Proof.
  unfold respond. rewrite run_bind. cbn zeta.
  destruct (result (run h m w)) as [a|[]]; simpl; by rewrite app_nil_r.
Qed.

Lemma run_POST_rejected (json_body : dict) (errors : field_errors) (w : W) :
  CommentIn_validate json_body = inl errors ->
  run h (POST_api_comments json_body) w = (mkHttp 422 (JsonErrors errors), w, []).
Proof. unfold POST_api_comments. by intros ->. Qed.

Lemma run_POST_persisted (json_body : dict) (c : CommentIn) (w w1 : W)
    (new_id : string) :
  CommentIn_validate json_body = inr c ->
  h _ (create_document "comment" (schema_of c)) w = (Returns new_id, w1) ->
  let fwd := run h (forward_to_google_sheet (sheet_payload (schema_of c))) w1 in
  run h (POST_api_comments json_body) w =
  (mkHttp 200 (JsonComment (out_of new_id (schema_of c))), final fwd,
   Event (create_document "comment" (schema_of c)) (Returns new_id) :: calls fwd).
Proof.
  intros Hvalid Hstore fwd. unfold POST_api_comments. rewrite Hvalid.
  rewrite run_respond.
  by rewrite (run_create_comment_persisted h c w w1 new_id Hstore).
Qed.

Lemma run_POST_store_raises (json_body : dict) (c : CommentIn) (w w1 : W)
    (e : exn) :
  CommentIn_validate json_body = inr c ->
  h _ (create_document "comment" (schema_of c)) w = (Raises e, w1) ->
  run h (POST_api_comments json_body) w =
  (mkHttp 400 (JsonDetail (str_exn e)), w1,
   [Event (create_document "comment" (schema_of c)) (Raises e)]).
Proof.
  intros Hvalid Hstore. unfold POST_api_comments. rewrite Hvalid.
  rewrite run_respond.
  by rewrite (run_create_comment_store_raises h c w w1 e Hstore).
Qed.

(** [list_comments]: one call to the store, then the loop. *)
Lemma run_list_comments (limit : Z) (w : W) :
  let answer := h _ (get_documents "comment" ∅ limit) w in
  run h (list_comments limit) w =
  (match answer.1 with
   | Returns docs =>
       match append_rows docs [] with
       | Returns rows => Returns rows
       | Raises e => Raises (HTTPException 500 (str_exn e))
       end
   | Raises e => Raises (HTTPException 500 (str_exn e))
   end, answer.2,
   [Event (get_documents "comment" ∅ limit) answer.1]).
Proof.
  intros answer. unfold list_comments.
  match goal with |- run h (try_except ?m _) w = _ => set (try_body := m) end.
  assert (Htry : run h try_body w =
    (match answer.1 with
     | Returns docs => append_rows docs []
     | Raises e => Raises e
     end, answer.2, [Event (get_documents "comment" ∅ limit) answer.1])).
  { unfold try_body. destruct answer.1 as [docs|e] eqn:Hanswer.
    - rewrite (run_py_bind_returns h _ _ w docs)
        by (by rewrite run_perform; fold answer).
      rewrite run_perform. fold answer. rewrite Hanswer.
      by rewrite run_lift.
    - rewrite (run_py_bind_raises h _ _ w e)
        by (by rewrite run_perform; fold answer).
      rewrite run_perform. fold answer. by rewrite Hanswer. }
  destruct answer.1 as [docs|e].
  - destruct (append_rows docs []) as [rows|e] eqn:Hrows.
    + rewrite (run_try_except_returns h _ _ w rows) by (by rewrite Htry).
      by rewrite Htry.
    + rewrite (run_try_except_raises h _ _ w e) by (by rewrite Htry).
      by rewrite Htry.
  - rewrite (run_try_except_raises h _ _ w e) by (by rewrite Htry).
    by rewrite Htry.
Qed.

End RouteFacts.

(** ** Stored documents *)

Section RowFacts.
Context `{Pydantic}.

Lemma row_kwargs_id (d : dict) :
  row_kwargs d !! "id" = Some (VStr (py_str (dict_get d "_id" VNone))).
Proof. done. Qed.
Lemma row_kwargs_name (d : dict) :
  row_kwargs d !! "name" = Some (dict_get d "name" (VStr "")).
Proof. done. Qed.
Lemma row_kwargs_message (d : dict) :
  row_kwargs d !! "message" = Some (dict_get d "message" (VStr "")).
Proof. done. Qed.
Lemma row_kwargs_attending (d : dict) :
  row_kwargs d !! "attending" = Some (dict_get d "attending" VNone).
Proof. done. Qed.
Lemma row_kwargs_guests (d : dict) :
  row_kwargs d !! "guests" = Some (dict_get d "guests" VNone).
Proof. done. Qed.
Lemma row_kwargs_phone (d : dict) :
  row_kwargs d !! "phone" = Some (dict_get d "phone" VNone).
Proof. done. Qed.

Create Rewrite HintDb row_kwargs.
#[local] Hint Rewrite row_kwargs_id row_kwargs_name row_kwargs_message
  row_kwargs_attending row_kwargs_guests row_kwargs_phone : row_kwargs.

Lemma CommentOut_init_row (d : dict) :
  well_typed d = true ->
  exists row, CommentOut_init (row_kwargs d) = Returns row /\ shows d row.
Proof.
  unfold well_typed. rewrite !andb_true_iff.
  intros [[[[Hname Hmessage] Hattending] Hguests] Hphone].
  unfold CommentOut_init, required_kwarg, optional_field.
  autorewrite with row_kwargs. unfold shows, dict_get.
  destruct (d !! "name") as [[]|]; try done;
  destruct (d !! "message") as [[]|]; try done;
  destruct (d !! "attending") as [[]|]; try done;
  destruct (d !! "guests") as [[]|]; try done;
  destruct (d !! "phone") as [[]|]; try done;
  simpl; rewrite ?lax_bool_exact, ?lax_int_exact, ?lax_str_exact;
  eexists; (split; [done|]); simpl; done.
Qed.

Lemma append_rows_well_typed (docs : list dict) (results : list CommentOut) :
  forallb well_typed docs = true ->
  exists rows, append_rows docs results = Returns (results ++ rows)
               /\ Forall2 shows docs rows.
Proof.
  revert results. induction docs as [|d docs IH]; intros results Htyped.
  - exists []. by rewrite app_nil_r.
  - simpl in Htyped. apply andb_true_iff in Htyped as [Hd Hdocs].
    destruct (CommentOut_init_row d Hd) as (row & Hrow & Hshows).
    destruct (IH (results ++ [row]) Hdocs) as (rows & Hrows & Hall).
    exists (row :: rows). simpl. rewrite Hrow, Hrows.
    split; [by rewrite <- app_assoc | by constructor].
Qed.

End RowFacts.

(** ** What the handlers ask of the store *)

(** No call of a program takes an issued id away. *)
Lemma issued_run {W A} (h : handler W) (issued : W -> list string)
    (p : prog A) (w : W) :
  assigns_fresh_ids h issued -> issued w ⊆ issued (final (run h p w)).
Proof.
  intros [Hmono _]. revert w. induction p as [a|X c k IH]; intros w.
  - done.
  - unfold final in *. simpl. specialize (Hmono X c w).
    destruct (h X c w) as [x w1]. specialize (IH x w1).
    destruct (run h (k x) w1) as [[a w2] t]. simpl in *.
    by etrans.
Qed.

Lemma pretty_N_go_nonempty (x : N) (s : string) :
  s <> "" -> pretty_N_go x s <> "".
Proof.
  revert s. induction (N.lt_wf_0 x) as [x _ IH]; intros s Hs.
  destruct (decide (x = 0)%N) as [->|Hx].
  - by rewrite pretty_N_go_0.
  - rewrite pretty_N_go_step by lia. apply IH; [|done].
    apply N.div_lt; lia.
Qed.

Lemma pretty_nat_nonempty (n : nat) : pretty n <> "".
Proof.
  unfold pretty, pretty_nat, pretty, pretty_N. case_decide; [done|].
  rewrite pretty_N_go_step by lia. by apply pretty_N_go_nonempty.
Qed.

Lemma in_memory_nonempty_ids : assigns_nonempty_ids in_memory.
Proof.
  intros collection_name data w new_id. simpl. unfold store_insert.
  destruct (store_up w); simpl; [|done].
  intros [= <-]. apply pretty_nat_nonempty.
Qed.

Lemma in_memory_fresh_ids : assigns_fresh_ids in_memory issued_ids.
Proof.
  split.
  - intros X c w. destruct c; simpl; try done.
    + unfold store_insert. destruct (store_up w); simpl; [|done].
      unfold issued_ids. simpl. rewrite length_app. simpl.
      rewrite seq_app, fmap_app. intros x Hx. apply elem_of_app. by left.
    + unfold store_find. by destruct (store_up w).
  - intros collection_name data w new_id. simpl. unfold store_insert.
    destruct (store_up w); simpl; [|done]. intros [= <-].
    unfold issued_ids. simpl. split.
    + intros (n & Heq & Hn)%list_elem_of_fmap.
      apply (inj pretty) in Heq. subst n.
      apply elem_of_seq in Hn. lia.
    + rewrite length_app. simpl. apply list_elem_of_fmap.
      exists (length (stored w)). split; [done|].
      apply elem_of_seq. lia.
Qed.

(** * The claims *)

Lemma CommentIn_validate_exact `{Pydantic} (json_body : dict) (n m : string)
    (a : option bool) (g : option Z) (p : option string) :
  json_body !! "name" = Some (VStr n) ->
  json_body !! "message" = Some (VStr m) ->
  submitted of_opt_bool None (json_body !! "attending") a ->
  submitted of_opt_int (Some 1) (json_body !! "guests") g ->
  submitted of_opt_str None (json_body !! "phone") p ->
  CommentIn_validate json_body = inr (mkCommentIn n m a g p).
Proof.
  intros Hn Hm Ha Hg Hp. unfold CommentIn_validate.
  rewrite (proj2 (required_str_inr _ "name" n)) by done.
  rewrite (proj2 (required_str_inr _ "message" m)) by done.
  assert (optional_field lax_bool BoolParsing None json_body "attending"
          = inr a) as ->.
  { unfold submitted in Ha. destruct (json_body !! "attending") eqn:E.
    - subst v. by apply optional_bool_exact.
    - subst a. by apply optional_field_absent. }
  assert (optional_field lax_int IntParsing (Some 1) json_body "guests"
          = inr g) as ->.
  { unfold submitted in Hg. destruct (json_body !! "guests") eqn:E.
    - subst v. by apply optional_int_exact.
    - subst g. by apply optional_field_absent. }
  assert (optional_field strict_str StringType None json_body "phone"
          = inr p) as ->.
  { unfold submitted in Hp. destruct (json_body !! "phone") eqn:E.
    - subst v. by apply optional_str_exact.
    - subst p. by apply optional_field_absent. }
  done.
Qed.

(** C1. A body whose name and message are strings, and whose optional
    fields are left out or hold a value of their type, is answered with 200
    and a comment that carries the id the store assigned (which is not
    empty) and the submitted name, message, attending, guests and phone;
    guests is 1 when it was left out, attending and phone are absent when
    they were left out.  This needs the store to take the record and to
    assign non-empty ids; it holds for empty names and messages as well. *)
Theorem create_comment_echoes `{Pydantic} {W} (h : handler W) (w : W)
    (json_body : dict) (n m : string) (a : option bool) (g : option Z)
    (p : option string) :
  json_body !! "name" = Some (VStr n) ->
  json_body !! "message" = Some (VStr m) ->
  submitted of_opt_bool None (json_body !! "attending") a ->
  submitted of_opt_int (Some 1) (json_body !! "guests") g ->
  submitted of_opt_str None (json_body !! "phone") p ->
  assigns_nonempty_ids h ->
  (exists new_id,
     (h _ (create_document "comment" (mkComment n m a g p)) w).1
     = Returns new_id) ->
  exists new_id,
    new_id <> ""
    /\ result (run h (POST_api_comments json_body) w)
       = mkHttp 200 (JsonComment (mkCommentOut (Some new_id) n m a g p)).
Proof.
  intros Hn Hm Ha Hg Hp Hids [new_id Hstore].
  exists new_id. split; [by eapply Hids|].
  pose proof (CommentIn_validate_exact json_body n m a g p Hn Hm Ha Hg Hp)
    as Hvalid.
  destruct (h _ (create_document "comment" (mkComment n m a g p)) w)
    as [answer w1] eqn:Hcall.
  simpl in Hstore. subst answer.
  by rewrite (run_POST_persisted h json_body _ w w1 new_id Hvalid Hcall).
Qed.

(** C2. Once the store has returned an id, the response is 200 with the new
    comment and its id, whatever the forwarding does: no URL configured, a
    POST that is answered with any status, or a POST that raises. *)
Theorem forward_outcome_ignored `{Pydantic} {W} (h : handler W) (w w1 : W)
    (json_body : dict) (c : CommentIn) (new_id : string)
    (url : option string) (answer : outcome Response) :
  CommentIn_validate json_body = inr c ->
  h _ (create_document "comment" (schema_of c)) w = (Returns new_id, w1) ->
  result (run (with_webhook url answer h) (POST_api_comments json_body) w)
  = mkHttp 200 (JsonComment (out_of new_id (schema_of c))).
Proof.
  intros Hvalid Hstore.
  by rewrite (run_POST_persisted (with_webhook url answer h) json_body c w w1
                new_id Hvalid Hstore).
Qed.

(** C3. A body whose name or message is missing or not a string is answered
    with a 4xx status, and [create_document] is not called: the state of
    the collaborators is what it was. *)
Theorem invalid_comment_rejected `{Pydantic} {W} (h : handler W) (w : W)
    (json_body : dict) :
  is_string (json_body !! "name") = false
  \/ is_string (json_body !! "message") = false ->
  400 <= status (result (run h (POST_api_comments json_body) w)) < 500
  /\ count is_create (calls (run h (POST_api_comments json_body) w)) = 0%nat
  /\ final (run h (POST_api_comments json_body) w) = w.
Proof.
  intros Hbad. destruct (CommentIn_validate_rejects json_body Hbad) as [errs Herrs].
  rewrite (run_POST_rejected h json_body errs w Herrs). simpl.
  split; [lia|done].
Qed.

(** C4. With a URL configured, the forwarder makes exactly one POST, to
    that URL, with the payload as JSON and a timeout of 8, and returns a
    record (it never raises): forwarded is true exactly for a 200 or 201
    answer, with the status and the response text cut after 200
    characters; when the POST raises, forwarded is false and the reason is
    the exception text cut after 200 characters. *)
Theorem forwarder_posts_once `{Pydantic} {W} (h : handler W) (w : W)
    (payload : dict) (url : string) :
  (h _ (os_getenv "GOOGLE_APPS_SCRIPT_URL") w).1 = Some url ->
  url <> "" ->
  exists answer meta,
    calls (run h (forward_to_google_sheet payload) w)
    = [Event (os_getenv "GOOGLE_APPS_SCRIPT_URL") (Some url);
       Event (requests_post url payload 8) answer]
    /\ count is_post (calls (run h (forward_to_google_sheet payload) w)) = 1%nat
    /\ result (run h (forward_to_google_sheet payload) w) = Returns meta
    /\ reports answer meta.
Proof.
  intros Henv Hurl.
  destruct (h _ (os_getenv "GOOGLE_APPS_SCRIPT_URL") w) as [url' w1] eqn:Hcall.
  simpl in Henv. subst url'.
  destruct (h _ (requests_post url payload 8) w1) as [answer w2] eqn:Hpost.
  exists answer, (sheet_meta_of answer).
  rewrite (run_forward_posted h payload w w1 w2 url answer Hcall Hurl Hpost).
  repeat split; try done.
  destruct answer as [resp|e]; simpl.
  - split; [done|]. split.
    + exists (str_prefix 200 (text resp)).
      split; [done|apply str_prefix_first_chars].
    + change (Some (VBool (bool_decide (status_code resp ∈ [200; 201])))
              = Some (VBool (bool_decide (status_code resp = 200
                                          \/ status_code resp = 201)))).
      do 2 f_equal. apply bool_decide_ext.
      rewrite !elem_of_cons, elem_of_nil. tauto.
  - split; [done|].
    exists (str_prefix 200 (str_exn e)).
    split; [done|apply str_prefix_first_chars].
Qed.

(** C5. Without a URL (the variable is unset or empty) the forwarder reads
    the environment and returns a record that says nothing was forwarded
    and why; no POST is made. *)
Theorem forwarder_skips_without_url `{Pydantic} {W} (h : handler W) (w : W)
    (payload : dict) :
  falsy (h _ (os_getenv "GOOGLE_APPS_SCRIPT_URL") w).1 = true ->
  result (run h (forward_to_google_sheet payload) w)
  = Returns (<["forwarded" := VBool false]>
             (<["reason" := VStr "No GOOGLE_APPS_SCRIPT_URL configured"]> ∅))
  /\ count is_post (calls (run h (forward_to_google_sheet payload) w)) = 0%nat
  /\ calls (run h (forward_to_google_sheet payload) w)
     = [Event (os_getenv "GOOGLE_APPS_SCRIPT_URL")
          (h _ (os_getenv "GOOGLE_APPS_SCRIPT_URL") w).1].
Proof.
  intros Hfalsy.
  destruct (h _ (os_getenv "GOOGLE_APPS_SCRIPT_URL") w) as [url w1] eqn:Hcall.
  by rewrite (run_forward_skipped h payload w w1 url Hcall Hfalsy).
Qed.

(** C6. When [get_documents] raises, the listing is answered with 500 and
    the text of the exception; when [create_document] raises, the creation
    is answered with 400 and the text of the exception.  Each of the two
    holds on its own, in any state of the store. *)
Theorem store_fault_statuses `{Pydantic} {W} (h : handler W) :
  (forall (w : W) (limit : option Z) (e : exn),
     (h _ (get_documents "comment" ∅ (default 50 limit)) w).1 = Raises e ->
     result (run h (GET_api_comments limit) w)
     = mkHttp 500 (JsonDetail (str_exn e)))
  /\ (forall (w : W) (json_body : dict) (c : CommentIn) (e : exn),
        CommentIn_validate json_body = inr c ->
        (h _ (create_document "comment" (schema_of c)) w).1 = Raises e ->
        result (run h (POST_api_comments json_body) w)
        = mkHttp 400 (JsonDetail (str_exn e))).
Proof.
  split.
  - intros w limit e Hread.
    unfold GET_api_comments. rewrite run_respond, run_list_comments.
    cbn zeta. unfold result at 1 2. simpl. by rewrite Hread.
  - intros w json_body c e Hvalid Hwrite.
    destruct (h _ (create_document "comment" (schema_of c)) w)
      as [answer w1] eqn:Hcall.
    simpl in Hwrite. subst answer.
    by rewrite (run_POST_store_raises h json_body c w w1 e Hvalid Hcall).
Qed.

(** C7. The listing asks the store for the "comment" collection with an
    empty filter and the given limit, 50 when the query has none.  When the
    store returns well-typed documents, the answer is 200 with one row per
    document, in the order of the store; each row shows its document: the
    id is the stringified [_id], a missing name or message is the empty
    string, and a missing attending, guests or phone is absent. *)
Theorem list_comments_rows `{Pydantic} {W} (h : handler W) (w : W)
    (limit : option Z) (docs : list dict) :
  let n := match limit with Some n => n | None => 50 end in
  (h _ (get_documents "comment" ∅ n) w).1 = Returns docs ->
  forallb well_typed docs = true ->
  exists rows,
    calls (run h (GET_api_comments limit) w)
    = [Event (get_documents "comment" ∅ n) (Returns docs)]
    /\ result (run h (GET_api_comments limit) w)
       = mkHttp 200 (JsonComments rows)
    /\ Forall2 shows docs rows.
Proof.
  intros n Hstore Htyped.
  destruct (append_rows_well_typed docs [] Htyped) as (rows & Hrows & Hshows).
  exists rows. unfold GET_api_comments.
  replace (default 50 limit) with n by (by destruct limit).
  rewrite run_respond, run_list_comments. cbn zeta.
  unfold result, calls. simpl. rewrite Hstore, Hrows. done.
Qed.

(** The forwarder does not touch the store. *)
Lemma forward_no_create `{Pydantic} {W} (h : handler W) (w : W) (payload : dict) :
  count is_create (calls (run h (forward_to_google_sheet payload) w)) = 0%nat.
Proof.
  destruct (h _ (os_getenv "GOOGLE_APPS_SCRIPT_URL") w) as [url w1] eqn:Henv.
  destruct (falsy url) eqn:Hfalsy.
  - by rewrite (run_forward_skipped h payload w w1 url Henv Hfalsy).
  - destruct url as [url|]; [|done].
    apply bool_decide_eq_false in Hfalsy.
    destruct (h _ (requests_post url payload 8) w1) as [answer w2] eqn:Hpost.
    by rewrite (run_forward_posted h payload w w1 w2 url answer Henv Hfalsy Hpost).
Qed.

(** The forwarder does not read the store either. *)
Lemma forward_no_get `{Pydantic} {W} (h : handler W) (w : W) (payload : dict) :
  count is_get (calls (run h (forward_to_google_sheet payload) w)) = 0%nat.
Proof.
  destruct (h _ (os_getenv "GOOGLE_APPS_SCRIPT_URL") w) as [url w1] eqn:Henv.
  destruct (falsy url) eqn:Hfalsy.
  - by rewrite (run_forward_skipped h payload w w1 url Henv Hfalsy).
  - destruct url as [url|]; [|done].
    apply bool_decide_eq_false in Hfalsy.
    destruct (h _ (requests_post url payload 8) w1) as [answer w2] eqn:Hpost.
    by rewrite (run_forward_posted h payload w w1 w2 url answer Henv Hfalsy Hpost).
Qed.

(** A creation that is answered with 200 got an id from the store. *)
Lemma POST_ok_persisted `{Pydantic} {W} (h : handler W) (w : W)
    (json_body : dict) (c : CommentIn) :
  CommentIn_validate json_body = inr c ->
  status (result (run h (POST_api_comments json_body) w)) = 200 ->
  exists new_id,
    (h _ (create_document "comment" (schema_of c)) w).1 = Returns new_id.
Proof.
  intros Hvalid Hok.
  destruct (h _ (create_document "comment" (schema_of c)) w)
    as [[new_id|e] w1] eqn:Hcall; [by exists new_id|].
  by rewrite (run_POST_store_raises h json_body c w w1 e Hvalid Hcall) in Hok.
Qed.

(** C8. Two submissions of the same valid body, to a store that takes the
    record both times and never hands out an id twice, are both answered
    with 200: the store is asked to create a document each time, and the
    two comments have the same fields and two different ids.  Nothing is
    looked up and the second submission is not turned away. *)
Theorem duplicate_submissions_distinct `{Pydantic} {W} (h : handler W)
    (issued : W -> list string) (w : W) (json_body : dict) (c : CommentIn) :
  assigns_fresh_ids h issued ->
  CommentIn_validate json_body = inr c ->
  let first := run h (POST_api_comments json_body) w in
  let second := run h (POST_api_comments json_body) (final first) in
  accepts h w (schema_of c) ->
  accepts h (final first) (schema_of c) ->
  exists id1 id2,
    id1 <> id2
    /\ result first = mkHttp 200 (JsonComment (out_of id1 (schema_of c)))
    /\ result second = mkHttp 200 (JsonComment (out_of id2 (schema_of c)))
    /\ count is_create (calls first) = 1%nat
    /\ count is_create (calls second) = 1%nat
    /\ count is_get (calls first ++ calls second) = 0%nat.
Proof.
  intros Hfresh Hvalid first second [id1 Hid1] [id2 Hid2].
  destruct (h _ (create_document "comment" (schema_of c)) w)
    as [answer1 w1] eqn:Hcall1.
  simpl in Hid1. subst answer1.
  pose proof (run_POST_persisted h json_body c w w1 id1 Hvalid Hcall1) as Hrun1.
  cbn zeta in Hrun1. fold first in Hrun1.
  set (fwd1 := run h (forward_to_google_sheet (sheet_payload (schema_of c))) w1)
    in Hrun1.
  assert (Hfinal : final first = final fwd1) by (by rewrite Hrun1).
  destruct (h _ (create_document "comment" (schema_of c)) (final first))
    as [answer2 w2] eqn:Hcall2.
  simpl in Hid2. subst answer2.
  pose proof (run_POST_persisted h json_body c (final first) w2 id2 Hvalid Hcall2)
    as Hrun2.
  cbn zeta in Hrun2. fold second in Hrun2.
  exists id1, id2. split; [|split; [|split; [|split; [|split]]]].
  - intros <-.
    destruct Hfresh as [Hmono Hnew].
    destruct (Hnew "comment" (schema_of c) w id1) as [_ Hin1];
      [by rewrite Hcall1|].
    destruct (Hnew "comment" (schema_of c) (final first) id1) as [Hout2 _];
      [by rewrite Hcall2|].
    rewrite Hcall1 in Hin1. simpl in Hin1.
    apply Hout2. rewrite Hfinal.
    by apply (issued_run h issued _ w1 (conj Hmono Hnew)).
  - by rewrite Hrun1.
  - by rewrite Hrun2.
  - rewrite Hrun1. unfold calls, count. simpl.
    apply (f_equal S). apply (forward_no_create h w1).
  - rewrite Hrun2. unfold calls, count. simpl.
    apply (f_equal S). apply (forward_no_create h w2).
  - assert (Hg1 : count is_get (calls first) = 0%nat).
    { rewrite Hrun1. unfold calls, count. simpl. apply (forward_no_get h w1). }
    assert (Hg2 : count is_get (calls second) = 0%nat).
    { rewrite Hrun2. unfold calls, count. simpl. apply (forward_no_get h w2). }
    unfold count in *. rewrite List.filter_app, length_app. by rewrite Hg1, Hg2.
Qed.

(** C9. The body with an empty name and an empty message passes
    validation; when the store takes the record, it is stored as it is and
    the answer is 200.  For name and message, validation only asks for a
    string. *)
Theorem empty_name_accepted `{Pydantic} {W} (h : handler W) (w w1 : W)
    (new_id : string) :
  h _ (create_document "comment" (mkComment "" "" None (Some 1) None)) w
  = (Returns new_id, w1) ->
  CommentIn_validate nameless = inr (mkCommentIn "" "" None (Some 1) None)
  /\ head (calls (run h (POST_api_comments nameless) w))
     = Some (Event (create_document "comment"
                      (mkComment "" "" None (Some 1) None)) (Returns new_id))
  /\ result (run h (POST_api_comments nameless) w)
     = mkHttp 200 (JsonComment
                     (mkCommentOut (Some new_id) "" "" None (Some 1) None))
  /\ (forall (d : dict) (key s : string),
        d !! key = Some (VStr s) -> required_str d key = inr s).
Proof.
  intros Hstore.
  assert (Hvalid : CommentIn_validate nameless
                   = inr (mkCommentIn "" "" None (Some 1) None)).
  { by apply CommentIn_validate_exact. }
  split; [done|].
  rewrite (run_POST_persisted h nameless _ w w1 new_id Hvalid Hstore).
  repeat split. intros d key s. apply required_str_inr.
Qed.

(** C10. When [create_document] raises, [create_comment] makes no other
    call: the environment is not read and nothing is posted. *)
Theorem no_forward_without_persistence `{Pydantic} {W} (h : handler W) (w : W)
    (c : CommentIn) (e : exn) :
  (h _ (create_document "comment" (schema_of c)) w).1 = Raises e ->
  calls (run h (create_comment c) w)
  = [Event (create_document "comment" (schema_of c)) (Raises e)]
  /\ count is_getenv (calls (run h (create_comment c) w)) = 0%nat
  /\ count is_post (calls (run h (create_comment c) w)) = 0%nat.
Proof.
  intros Hstore.
  destruct (h _ (create_document "comment" (schema_of c)) w)
    as [answer w1] eqn:Hcall.
  simpl in Hstore. subst answer.
  by rewrite (run_create_comment_store_raises h c w w1 e Hcall).
Qed.

(** * The scenarios of the specification *)

Section Scenarios.
#[local] Existing Instance strict_pydantic.

(** Alice's submission comes back with an id and a null phone. *)
Example scenario_alice :
  result (run in_memory (POST_api_comments alice) quiet)
  = mkHttp 200 (JsonComment
                  (mkCommentOut (Some "0") "Alice" "See you there!" (Some true)
                     (Some 2) None)).
Proof. reflexivity. Qed.

(** A body without a name is turned away before the handler runs. *)
Example scenario_no_name :
  run in_memory (POST_api_comments no_name) quiet
  = (mkHttp 422 (JsonErrors [("name", Missing)]), quiet, []).
Proof. reflexivity. Qed.

(** After two creations, a listing with limit 1 shows exactly one comment. *)
Example scenario_limit_one :
  let w1 := final (run in_memory (POST_api_comments alice) quiet) in
  let w2 := final (run in_memory (POST_api_comments nameless) w1) in
  result (run in_memory (GET_api_comments (Some 1)) w2)
  = mkHttp 200 (JsonComments
                  [mkCommentOut (Some "0") "Alice" "See you there!" (Some true)
                     (Some 2) None]).
Proof. reflexivity. Qed.

(** A webhook that answers 500 is reported, not raised. *)
Example scenario_webhook_500 :
  result (run in_memory (forward_to_google_sheet alice) hooked)
  = Returns (<["forwarded" := VBool false]>
             (<["status" := VInt 500]>
             (<["response" := VStr "Internal error"]> ∅))).
Proof. reflexivity. Qed.

(** A text is cut between characters, not between bytes. *)
Example scenario_cut_between_characters :
  str_prefix 2 "✅✅✅" = "✅✅"
  /\ py_len "✅✅✅" = 3%nat
  /\ str_prefix 50 (copies 60 "❌") = copies 50 "❌"
  /\ str_prefix 200 (copies 100 "✅") = copies 100 "✅".
Proof. repeat split; reflexivity. Qed.

End Scenarios.

(** * The claims on concrete runs *)

Lemma create_comment_echoes_witness :
  exists new_id,
    new_id <> ""
    /\ result (run in_memory (POST_api_comments (H := strict_pydantic) alice) quiet)
       = mkHttp 200 (JsonComment
                       (mkCommentOut (Some new_id) "Alice" "See you there!"
                          (Some true) (Some 2) None)).
Proof.
  apply (create_comment_echoes (H := strict_pydantic) in_memory quiet alice
           "Alice" "See you there!" (Some true) (Some 2) None).
  - reflexivity.
  - reflexivity.
  - reflexivity.
  - reflexivity.
  - reflexivity.
  - apply in_memory_nonempty_ids.
  - exists "0". reflexivity.
Defined.

Lemma forward_outcome_ignored_witness :
  result (run (with_webhook (Some "https://script.example/exec")
                 (Raises (Exception "timed out")) in_memory)
            (POST_api_comments (H := strict_pydantic) alice) quiet)
  = mkHttp 200 (JsonComment (out_of "0" (schema_of alice_in))).
Proof.
  apply (forward_outcome_ignored (H := strict_pydantic) in_memory quiet
           (final (run in_memory
                     (perform (create_document "comment" (schema_of alice_in)))
                     quiet))
           alice alice_in "0").
  - reflexivity.
  - reflexivity.
Defined.

Lemma invalid_comment_rejected_witness :
  400 <= status (result (run in_memory
                           (POST_api_comments (H := strict_pydantic) no_name)
                           quiet)) < 500
  /\ count is_create
       (calls (run in_memory (POST_api_comments (H := strict_pydantic) no_name)
                 quiet)) = 0%nat
  /\ final (run in_memory (POST_api_comments (H := strict_pydantic) no_name)
              quiet) = quiet.
Proof.
  apply (invalid_comment_rejected (H := strict_pydantic) in_memory quiet no_name).
  left. reflexivity.
Defined.

Lemma forwarder_posts_once_witness :
  exists answer meta,
    calls (run in_memory (forward_to_google_sheet (H := strict_pydantic) alice)
             hooked)
    = [Event (os_getenv "GOOGLE_APPS_SCRIPT_URL")
         (Some "https://script.example/exec");
       Event (requests_post "https://script.example/exec" alice 8) answer]
    /\ count is_post
         (calls (run in_memory
                   (forward_to_google_sheet (H := strict_pydantic) alice) hooked))
       = 1%nat
    /\ result (run in_memory
                 (forward_to_google_sheet (H := strict_pydantic) alice) hooked)
       = Returns meta
    /\ reports (H := strict_pydantic) answer meta.
Proof.
  apply (forwarder_posts_once (H := strict_pydantic) in_memory hooked alice
           "https://script.example/exec").
  - reflexivity.
  - discriminate.
Defined.

Lemma forwarder_skips_without_url_witness :
  result (run in_memory (forward_to_google_sheet (H := strict_pydantic) alice)
            quiet)
  = Returns (<["forwarded" := VBool false]>
             (<["reason" := VStr "No GOOGLE_APPS_SCRIPT_URL configured"]> ∅))
  /\ count is_post
       (calls (run in_memory
                 (forward_to_google_sheet (H := strict_pydantic) alice) quiet))
     = 0%nat
  /\ calls (run in_memory
               (forward_to_google_sheet (H := strict_pydantic) alice) quiet)
     = [Event (os_getenv "GOOGLE_APPS_SCRIPT_URL")
          (in_memory _ (os_getenv "GOOGLE_APPS_SCRIPT_URL") quiet).1].
Proof.
  apply (forwarder_skips_without_url (H := strict_pydantic) in_memory quiet alice).
  reflexivity.
Defined.

Lemma store_fault_statuses_witness :
  result (run reads_fail (GET_api_comments (H := strict_pydantic) None) quiet)
  = mkHttp 500 (JsonDetail "Database not available")
  /\ result (run reads_fail (POST_api_comments (H := strict_pydantic) alice)
               quiet)
     = mkHttp 200 (JsonComment (out_of "0" (schema_of alice_in)))
  /\ result (run in_memory (POST_api_comments (H := strict_pydantic) alice)
               offline)
     = mkHttp 400 (JsonDetail "Database not available").
Proof.
  split; [|split].
  - apply (proj1 (store_fault_statuses (H := strict_pydantic) reads_fail)
             quiet None store_down).
    reflexivity.
  - reflexivity.
  - apply (proj2 (store_fault_statuses (H := strict_pydantic) in_memory)
             offline alice alice_in store_down).
    + reflexivity.
    + reflexivity.
Defined.

Lemma list_comments_rows_witness :
  exists rows,
    calls (run in_memory (GET_api_comments (H := strict_pydantic) None) populated)
    = [Event (get_documents "comment" ∅ 50) (Returns (snd <$> stored populated))]
    /\ result (run in_memory (GET_api_comments (H := strict_pydantic) None)
                 populated)
       = mkHttp 200 (JsonComments rows)
    /\ Forall2 shows (snd <$> stored populated) rows.
Proof.
  apply (list_comments_rows (H := strict_pydantic) in_memory populated None
           (snd <$> stored populated)).
  - reflexivity.
  - reflexivity.
Defined.

Lemma duplicate_submissions_distinct_witness :
  exists id1 id2,
    id1 <> id2
    /\ result (run in_memory (POST_api_comments (H := strict_pydantic) alice)
                 quiet)
       = mkHttp 200 (JsonComment (out_of id1 (schema_of alice_in)))
    /\ result (run in_memory (POST_api_comments (H := strict_pydantic) alice)
                 (final (run in_memory
                           (POST_api_comments (H := strict_pydantic) alice)
                           quiet)))
       = mkHttp 200 (JsonComment (out_of id2 (schema_of alice_in)))
    /\ count is_create
         (calls (run in_memory (POST_api_comments (H := strict_pydantic) alice)
                   quiet)) = 1%nat
    /\ count is_create
         (calls (run in_memory (POST_api_comments (H := strict_pydantic) alice)
                   (final (run in_memory
                             (POST_api_comments (H := strict_pydantic) alice)
                             quiet)))) = 1%nat
    /\ count is_get
         (calls (run in_memory (POST_api_comments (H := strict_pydantic) alice)
                   quiet)
          ++ calls (run in_memory
                      (POST_api_comments (H := strict_pydantic) alice)
                      (final (run in_memory
                                (POST_api_comments (H := strict_pydantic) alice)
                                quiet)))) = 0%nat.
Proof.
  apply (duplicate_submissions_distinct (H := strict_pydantic) in_memory
           issued_ids quiet alice alice_in).
  - apply in_memory_fresh_ids.
  - reflexivity.
  - exists "0". reflexivity.
  - exists "1". reflexivity.
Defined.

Lemma empty_name_accepted_witness :
  CommentIn_validate (H := strict_pydantic) nameless
  = inr (mkCommentIn "" "" None (Some 1) None)
  /\ head (calls (run in_memory
                    (POST_api_comments (H := strict_pydantic) nameless) quiet))
     = Some (Event (create_document "comment"
                      (mkComment "" "" None (Some 1) None)) (Returns "0"))
  /\ result (run in_memory (POST_api_comments (H := strict_pydantic) nameless)
               quiet)
     = mkHttp 200 (JsonComment (mkCommentOut (Some "0") "" "" None (Some 1) None))
  /\ (forall (d : dict) (key s : string),
        d !! key = Some (VStr s) -> required_str d key = inr s).
Proof.
  apply (empty_name_accepted (H := strict_pydantic) in_memory quiet
           (final (run in_memory
                     (perform (create_document "comment"
                                 (mkComment "" "" None (Some 1) None)))
                     quiet))
           "0").
  reflexivity.
Defined.

Lemma no_forward_without_persistence_witness :
  calls (run in_memory (create_comment (H := strict_pydantic) alice_in) offline)
  = [Event (create_document "comment" (schema_of alice_in)) (Raises store_down)]
  /\ count is_getenv
       (calls (run in_memory (create_comment (H := strict_pydantic) alice_in)
                 offline)) = 0%nat
  /\ count is_post
       (calls (run in_memory (create_comment (H := strict_pydantic) alice_in)
                 offline)) = 0%nat.
Proof.
  apply (no_forward_without_persistence (H := strict_pydantic) in_memory offline
           alice_in store_down).
  reflexivity.
Defined.

(** * More properties of the routes *)

(** ** Creation *)

Section CreationFacts.
Context `{Pydantic} {W : Type} (h : handler W).

(** X1. Every creation is answered with 200, 400 or 422: a fault of the store
    is reported as 400 and never as a 5xx. *)
Theorem POST_status_cases (w : W) (json_body : dict) :
  status (result (run h (POST_api_comments json_body) w)) = 200
  \/ status (result (run h (POST_api_comments json_body) w)) = 400
  \/ status (result (run h (POST_api_comments json_body) w)) = 422.
Proof.
  destruct (CommentIn_validate json_body) as [errs|c] eqn:Hvalid.
  - right; right. by rewrite (run_POST_rejected h json_body errs w Hvalid).
  - destruct (h _ (create_document "comment" (schema_of c)) w)
      as [[new_id|e] w1] eqn:Hcall.
    + left. by rewrite (run_POST_persisted h json_body c w w1 new_id Hvalid Hcall).
    + right; left.
      by rewrite (run_POST_store_raises h json_body c w w1 e Hvalid Hcall).
Qed.

(** X2. A creation answered with 200 asked the store exactly once, first of
    all, for the "comment" collection, and the id in the answer is the one
    the store returned. *)
Theorem POST_ok_id_from_store (w : W) (json_body : dict) :
  status (result (run h (POST_api_comments json_body) w)) = 200 ->
  exists c new_id,
    CommentIn_validate json_body = inr c
    /\ head (calls (run h (POST_api_comments json_body) w))
       = Some (Event (create_document "comment" (schema_of c)) (Returns new_id))
    /\ content (result (run h (POST_api_comments json_body) w))
       = JsonComment (out_of new_id (schema_of c))
    /\ count is_create (calls (run h (POST_api_comments json_body) w)) = 1%nat.
Proof.
  intros Hok.
  destruct (CommentIn_validate json_body) as [errs|c] eqn:Hvalid.
  { by rewrite (run_POST_rejected h json_body errs w Hvalid) in Hok. }
  destruct (h _ (create_document "comment" (schema_of c)) w)
    as [[new_id|e] w1] eqn:Hcall.
  - exists c, new_id.
    rewrite (run_POST_persisted h json_body c w w1 new_id Hvalid Hcall).
    repeat split. unfold calls, count. simpl.
    apply (f_equal S), (forward_no_create h w1).
  - by rewrite (run_POST_store_raises h json_body c w w1 e Hvalid Hcall) in Hok.
Qed.

End CreationFacts.

(** X3. A key of the body that is not a field of [CommentIn] is ignored: the
    creation runs as if the key were not there.  The key ["id"] is one of
    them, so a client cannot choose the id. *)
Theorem POST_ignores_unknown_keys `{Pydantic} (json_body : dict) (key : string)
    (v : value) :
  key ∉ comment_fields ->
  POST_api_comments (<[key := v]> json_body) = POST_api_comments json_body.
Proof.
  unfold comment_fields. rewrite !not_elem_of_cons.
  intros (Hn & Hm & Ha & Hg & Hp & _).
  unfold POST_api_comments, CommentIn_validate, required_str, optional_field.
  by rewrite !lookup_insert_ne by done.
Qed.

(** X4. An optional field that holds a value its type turns down is rejected
    with 422 before anything is called. *)
Theorem POST_rejects_malformed_optional `{Pydantic} {W} (h : handler W) (w : W)
    (json_body : dict) :
  turned_down lax_bool (json_body !! "attending") = true
  \/ turned_down lax_int (json_body !! "guests") = true
  \/ turned_down strict_str (json_body !! "phone") = true ->
  exists errs,
    errs <> []
    /\ run h (POST_api_comments json_body) w
       = (mkHttp 422 (JsonErrors errs), w, []).
Proof.
  intros Hbad.
  assert (exists errs, errs <> [] /\ CommentIn_validate json_body = inl errs)
    as (errs & Hne & Hvalid).
  { unfold CommentIn_validate.
    assert (Hdown : forall {A} (conv : value -> option A) ty dflt key,
              turned_down conv (json_body !! key) = true ->
              optional_field conv ty dflt json_body key = inl [(key, ty)]).
    { intros A conv ty dflt key. unfold turned_down, optional_field.
      destruct (json_body !! key) as [[]|]; try done;
        by intros ->%bool_decide_eq_true. }
    destruct Hbad as [Ha|[Hg|Hp]].
    - rewrite (Hdown _ _ BoolParsing None _ Ha).
      destruct (required_str json_body "name"), (required_str json_body "message");
        eexists; (split; [|done]); simpl;
        intros Hnil; apply (f_equal length) in Hnil;
        rewrite ?length_app in Hnil; simpl in Hnil; lia.
    - rewrite (Hdown _ _ IntParsing (Some 1) _ Hg).
      destruct (required_str json_body "name"), (required_str json_body "message"),
        (optional_field lax_bool BoolParsing None json_body "attending");
        eexists; (split; [|done]); simpl;
        intros Hnil; apply (f_equal length) in Hnil;
        rewrite ?length_app in Hnil; simpl in Hnil; lia.
    - rewrite (Hdown _ _ StringType None _ Hp).
      destruct (required_str json_body "name"), (required_str json_body "message"),
        (optional_field lax_bool BoolParsing None json_body "attending"),
        (optional_field lax_int IntParsing (Some 1) json_body "guests");
        eexists; (split; [|done]); simpl;
        intros Hnil; apply (f_equal length) in Hnil;
        rewrite ?length_app in Hnil; simpl in Hnil; lia. }
  exists errs. split; [done|]. by apply run_POST_rejected.
Qed.

(** X5. With a URL configured, a creation the store accepts makes three calls:
    the insertion, the lookup of the URL, and one POST to it with a timeout
    of 8.  The webhook gets the five validated fields and not the id. *)
Theorem POST_forwards_fields_not_id `{Pydantic} {W} (h : handler W) (w w1 : W)
    (json_body : dict) (c : CommentIn) (new_id url : string) :
  CommentIn_validate json_body = inr c ->
  h _ (create_document "comment" (schema_of c)) w = (Returns new_id, w1) ->
  (h _ (os_getenv "GOOGLE_APPS_SCRIPT_URL") w1).1 = Some url ->
  url <> "" ->
  exists payload answer,
    calls (run h (POST_api_comments json_body) w)
    = [Event (create_document "comment" (schema_of c)) (Returns new_id);
       Event (os_getenv "GOOGLE_APPS_SCRIPT_URL") (Some url);
       Event (requests_post url payload 8) answer]
    /\ payload = CommentIn_model_dump c
    /\ payload !! "id" = None.
Proof.
  intros Hvalid Hstore Henv Hurl.
  destruct (h _ (os_getenv "GOOGLE_APPS_SCRIPT_URL") w1) as [url' w2] eqn:Hcall.
  simpl in Henv. subst url'.
  destruct (h _ (requests_post url (sheet_payload (schema_of c)) 8) w2)
    as [answer w3] eqn:Hpost.
  exists (sheet_payload (schema_of c)), answer.
  rewrite (run_POST_persisted h json_body c w w1 new_id Hvalid Hstore).
  rewrite (run_forward_posted h _ w1 w2 w3 url answer Hcall Hurl Hpost).
  done.
Qed.

(** ** Listing *)

Section ListingFacts.
Context `{Pydantic} {W : Type} (h : handler W).

(** X6. The listing makes one call, whatever the store answers: it asks for the
    "comment" collection with an empty filter and the limit of the query as
    it is (50 without one; zero and negative limits are handed on too).  It
    creates nothing and posts nothing. *)
Theorem GET_reads_once (w : W) (limit : option Z) :
  let n := match limit with Some n => n | None => 50 end in
  calls (run h (GET_api_comments limit) w)
  = [Event (get_documents "comment" ∅ n) (h _ (get_documents "comment" ∅ n) w).1]
  /\ final (run h (GET_api_comments limit) w)
     = (h _ (get_documents "comment" ∅ n) w).2
  /\ count is_create (calls (run h (GET_api_comments limit) w)) = 0%nat
  /\ count is_post (calls (run h (GET_api_comments limit) w)) = 0%nat.
Proof.
  intros n. unfold GET_api_comments.
  replace (default 50 limit) with n by (by destruct limit).
  by rewrite run_respond, run_list_comments.
Qed.

(** X7. Every listing, for a limit that is an integer or left out, is
    answered with 200 or 500. *)
Theorem GET_status_cases (w : W) (limit : option Z) :
  status (result (run h (GET_api_comments limit) w)) = 200
  \/ status (result (run h (GET_api_comments limit) w)) = 500.
Proof.
  unfold GET_api_comments. rewrite run_respond, run_list_comments.
  cbn zeta. unfold result. simpl.
  destruct (h _ (get_documents "comment" ∅ (default 50 limit)) w).1
    as [docs|e]; [|by right].
  destruct (append_rows docs []); [by left | by right].
Qed.

(** A document whose name or message is there but is not taken for a
    string makes the loop raise. *)
Lemma append_rows_raises (docs : list dict) (results : list CommentOut) :
  Exists (fun d => refused lax_str (d !! "name") = true
                   \/ refused lax_str (d !! "message") = true) docs ->
  exists e, append_rows docs results = Raises e.
Proof.
  intros Hbad. revert results.
  induction Hbad as [d docs Hd|d docs _ IH]; intros results; simpl.
  - assert (exists e, CommentOut_init (row_kwargs d) = Raises e) as [e ->];
      [|by eauto].
    unfold CommentOut_init, required_kwarg.
    rewrite row_kwargs_name, row_kwargs_message. unfold dict_get.
    destruct Hd as [Hd|Hd]; unfold refused in Hd.
    + destruct (d !! "name") as [v|]; [|done].
      apply bool_decide_eq_true in Hd. simpl. rewrite Hd. eauto.
    + destruct (d !! "message") as [v|]; [|done].
      apply bool_decide_eq_true in Hd. simpl. rewrite Hd.
      destruct (lax_str (default (VStr "") (d !! "name"))); eauto.
  - destruct (CommentOut_init (row_kwargs d)); eauto.
Qed.

(** X8. One stored document whose name or message is there and is not
    taken for a string ([None], a boolean or a number, for instance) fails
    the whole listing with 500, whatever the other documents are. *)
Theorem GET_one_bad_document_fails_all (w : W) (limit : option Z)
    (docs : list dict) :
  (h _ (get_documents "comment" ∅ (default 50 limit)) w).1 = Returns docs ->
  Exists (fun d => refused lax_str (d !! "name") = true
                   \/ refused lax_str (d !! "message") = true) docs ->
  exists detail,
    result (run h (GET_api_comments limit) w) = mkHttp 500 (JsonDetail detail).
Proof.
  intros Hstore Hbad.
  destruct (append_rows_raises docs [] Hbad) as [e He].
  exists (str_exn e). unfold GET_api_comments.
  rewrite run_respond, run_list_comments. cbn zeta. unfold result. simpl.
  by rewrite Hstore, He.
Qed.

(** The row of a document that holds a comment is the comment, with the
    stringified [_id] as its id. *)
Lemma CommentOut_init_holds (d : dict) (stored_id : value) (v : Comment) :
  holds d stored_id v ->
  CommentOut_init (row_kwargs d) = Returns (out_of (py_str stored_id) v).
Proof.
  intros [Hid Hfields]. unfold comment_fields in Hfields.
  rewrite !Forall_cons in Hfields.
  destruct Hfields as (Hn & Hm & Ha & Hg & Hp & _).
  unfold CommentOut_init.
  rewrite (required_kwarg_exact _ "name" (name v))
    by (by rewrite row_kwargs_name; unfold dict_get; rewrite Hn).
  rewrite (required_kwarg_exact _ "message" (message v))
    by (by rewrite row_kwargs_message; unfold dict_get; rewrite Hm).
  rewrite (optional_bool_exact _ "attending" None (attending v))
    by (by rewrite row_kwargs_attending; unfold dict_get; rewrite Ha).
  rewrite (optional_int_exact _ "guests" (Some 1) (guests v))
    by (by rewrite row_kwargs_guests; unfold dict_get; rewrite Hg).
  rewrite (optional_kwarg_str_exact _ "phone" None (phone v))
    by (by rewrite row_kwargs_phone; unfold dict_get; rewrite Hp).
  rewrite (optional_kwarg_str_exact _ "id" None (Some (py_str stored_id)))
    by (by rewrite row_kwargs_id; unfold dict_get; rewrite Hid).
  done.
Qed.

Lemma append_rows_holds (docs : list dict) (kept : list (value * Comment))
    (results : list CommentOut) :
  Forall2 (fun d iv => holds d iv.1 iv.2) docs kept ->
  append_rows docs results
  = Returns (results ++ ((fun iv => out_of (py_str iv.1) iv.2) <$> kept)).
Proof.
  intros Hall. revert results.
  induction Hall as [|d iv docs kept Hd _ IH]; intros results; simpl.
  - by rewrite app_nil_r.
  - rewrite (CommentOut_init_holds d iv.1 iv.2 Hd), IH.
    by rewrite <- app_assoc.
Qed.

(** X9. What was stored is what is listed: when the store returns documents
    that hold comments (the dump of a validated comment under an [_id],
    next to anything else), the listing shows each comment as the creation
    returned it, field by field, with the stringified [_id], in the order
    of the store. *)
Theorem GET_lists_what_was_stored (w : W) (limit : option Z) (docs : list dict)
    (kept : list (value * Comment)) :
  (h _ (get_documents "comment" ∅ (default 50 limit)) w).1 = Returns docs ->
  Forall2 (fun d iv => holds d iv.1 iv.2) docs kept ->
  result (run h (GET_api_comments limit) w)
  = mkHttp 200
      (JsonComments ((fun iv => out_of (py_str iv.1) iv.2) <$> kept)).
Proof.
  intros Hstore Hall. unfold GET_api_comments.
  rewrite run_respond, run_list_comments. cbn zeta. unfold result. simpl.
  by rewrite Hstore, (append_rows_holds docs kept [] Hall).
Qed.

End ListingFacts.

(** ** Forwarding *)

Section ForwardingFacts.
Context `{Pydantic} {W : Type} (h : handler W).

(** X10. Whatever the collaborators do, the forwarder returns a record with a
    [forwarded] flag, makes two calls at most, and leaves the store alone. *)
Theorem forwarder_leaves_store_alone (w : W) (payload : dict) :
  (exists meta flag,
     result (run h (forward_to_google_sheet payload) w) = Returns meta
     /\ meta !! "forwarded" = Some (VBool flag))
  /\ (length (calls (run h (forward_to_google_sheet payload) w)) <= 2)%nat
  /\ count is_create (calls (run h (forward_to_google_sheet payload) w)) = 0%nat
  /\ count is_get (calls (run h (forward_to_google_sheet payload) w)) = 0%nat.
Proof.
  destruct (h _ (os_getenv "GOOGLE_APPS_SCRIPT_URL") w) as [url w1] eqn:Henv.
  destruct (falsy url) eqn:Hfalsy.
  - rewrite (run_forward_skipped h payload w w1 url Henv Hfalsy).
    split; [by eexists _, _|]. simpl. repeat split; lia.
  - destruct url as [url|]; [|done].
    apply bool_decide_eq_false in Hfalsy.
    destruct (h _ (requests_post url payload 8) w1) as [answer w2] eqn:Hpost.
    rewrite (run_forward_posted h payload w w1 w2 url answer Henv Hfalsy Hpost).
    split; [|simpl; repeat split; lia].
    destruct answer; by eexists _, _.
Qed.

(** X11. A response text of 200 characters at most is reported in full,
    whatever the number of bytes of its characters. *)
Theorem forwarder_keeps_short_text (w : W) (payload : dict) (url : string)
    (resp : Response) :
  (h _ (os_getenv "GOOGLE_APPS_SCRIPT_URL") w).1 = Some url ->
  url <> "" ->
  (h _ (requests_post url payload 8)
     (h _ (os_getenv "GOOGLE_APPS_SCRIPT_URL") w).2).1 = Returns resp ->
  (py_len (text resp) <= 200)%nat ->
  exists meta,
    result (run h (forward_to_google_sheet payload) w) = Returns meta
    /\ meta !! "response" = Some (VStr (text resp))
    /\ meta !! "status" = Some (VInt (status_code resp))
    /\ meta !! "reason" = None.
Proof.
  intros Henv Hurl Hpost Hshort.
  destruct (h _ (os_getenv "GOOGLE_APPS_SCRIPT_URL") w) as [url' w1] eqn:Hcall.
  simpl in Henv, Hpost. subst url'.
  destruct (h _ (requests_post url payload 8) w1) as [answer w2] eqn:Hcall2.
  simpl in Hpost. subst answer.
  rewrite (run_forward_posted h payload w w1 w2 url _ Hcall Hurl Hcall2).
  eexists. split; [done|]. simpl.
  by rewrite (str_prefix_short 200 (text resp) Hshort).
Qed.

End ForwardingFacts.

(** ** The diagnostic report *)

Section DiagnosticFacts.
Context `{Pydantic}.

(** X12. The three configuration fields of the report say whether the variable
    is set and nothing else: what the block for a connected database wrote
    into [database_url] and [database_name] (the name of the database among
    it) is overwritten. *)
Theorem test_database_reports_env_only (s : surroundings) :
  test_database s !! "database_url" = Some (set_or_not s "DATABASE_URL")
  /\ test_database s !! "database_name" = Some (set_or_not s "DATABASE_NAME")
  /\ test_database s !! "apps_script_url"
     = Some (set_or_not s "GOOGLE_APPS_SCRIPT_URL")
  /\ forall key n, test_database s !! key <> Some (DVal n).
Proof.
  split; [|split; [|split]].
  - unfold test_database. cbn zeta.
    rewrite lookup_insert_ne by done. rewrite lookup_insert_ne by done.
    apply lookup_insert_eq.
  - unfold test_database. cbn zeta.
    rewrite lookup_insert_ne by done. apply lookup_insert_eq.
  - unfold test_database. cbn zeta. apply lookup_insert_eq.
  - intros key n. unfold test_database, set_or_not.
    destruct (import_database s) as [|e|[db|]];
      [| |destruct (list_collection_names db)|];
      cbn zeta; rewrite !lookup_insert, lookup_empty;
      repeat case_decide; try congruence; by repeat case_match.
Qed.

(** X13. The report lists ten collections at most: the first ten of those the
    database names, and none when the database is not there or fails. *)
Theorem test_database_collections (s : surroundings) :
  exists shown,
    test_database s !! "collections" = Some (DList shown)
    /\ (length shown <= 10)%nat
    /\ match import_database s with
       | Imported (Some db) =>
           match list_collection_names db with
           | Returns names => shown = take 10 names
           | Raises _ => shown = []
           end
       | _ => shown = []
       end.
Proof.
  unfold test_database.
  destruct (import_database s) as [|e|[db|]];
    [| |destruct (list_collection_names db) as [names|e]|];
    eexists; (split; [done|]); simpl; (split; [|done]); try lia.
  rewrite length_take. lia.
Qed.

(** X14. The report says "Connected" exactly when the import gave a database,
    also when the database then fails to list its collections; it says
    "Connected & Working" exactly when the listing succeeded as well. *)
Theorem test_database_connected_iff (s : surroundings) :
  (test_database s !! "connection_status" = Some (DStr "Connected")
   <-> exists db, import_database s = Imported (Some db))
  /\ (test_database s !! "database" = Some (DStr "✅ Connected & Working")
      <-> exists db names,
            import_database s = Imported (Some db)
            /\ list_collection_names db = Returns names).
Proof.
  unfold test_database. split.
  - destruct (import_database s) as [|e|[db|]];
      [| |destruct (list_collection_names db)|];
      (split; [intros Hlook|intros [db' Hdb]]); try done; eauto.
  - destruct (import_database s) as [|e|[db|]];
      [| |destruct (list_collection_names db) as [names|e] eqn:Hlist|];
      (split; [intros Hlook|intros (db' & names' & Hdb & Hnames)]);
      try done; eauto.
    injection Hdb as <-. congruence.
Qed.

(** X15. The text of an exception enters the report after a label, cut
    after 50 characters (whole when it has 50 characters at most); no
    collection is listed then. *)
Theorem test_database_error_cut (s : surroundings) (e : exn) (label : string) :
  (import_database s = ImportRaises e /\ label = "❌ Error: ")
  \/ (exists db, import_database s = Imported (Some db)
                 /\ list_collection_names db = Raises e
                 /\ label = "⚠️  Connected but Error: ") ->
  exists shown,
    test_database s !! "database" = Some (DStr (label +:+ shown))
    /\ first_chars 50 (str_exn e) shown
    /\ test_database s !! "collections" = Some (DList []).
Proof.
  intros [[Himport ->]|(db & Himport & Hlist & ->)]; unfold test_database;
    rewrite Himport, ?Hlist;
    exists (str_prefix 50 (str_exn e));
    (split; [done|]); (split; [apply str_prefix_first_chars|done]).
Qed.

End DiagnosticFacts.

(** * The further properties on concrete runs *)

Lemma POST_ok_id_from_store_witness :
  exists c new_id,
    CommentIn_validate (H := strict_pydantic) alice = inr c
    /\ head (calls (run in_memory
                      (POST_api_comments (H := strict_pydantic) alice) quiet))
       = Some (Event (create_document "comment" (schema_of c)) (Returns new_id))
    /\ content (result (run in_memory
                          (POST_api_comments (H := strict_pydantic) alice) quiet))
       = JsonComment (out_of new_id (schema_of c))
    /\ count is_create
         (calls (run in_memory (POST_api_comments (H := strict_pydantic) alice)
                   quiet)) = 1%nat.
Proof.
  apply (POST_ok_id_from_store (H := strict_pydantic) in_memory quiet alice).
  reflexivity.
Defined.

Lemma POST_ignores_unknown_keys_witness :
  POST_api_comments (H := strict_pydantic) (<["id" := VStr "chosen"]> alice)
  = POST_api_comments (H := strict_pydantic) alice.
Proof.
  apply (POST_ignores_unknown_keys (H := strict_pydantic) alice "id"
           (VStr "chosen")).
  apply (bool_decide_unpack _). reflexivity.
Defined.

Lemma POST_rejects_malformed_optional_witness :
  exists errs,
    errs <> []
    /\ run in_memory (POST_api_comments (H := strict_pydantic) numeric_phone)
         quiet
       = (mkHttp 422 (JsonErrors errs), quiet, []).
Proof.
  apply (POST_rejects_malformed_optional (H := strict_pydantic) in_memory quiet
           numeric_phone).
  right; right. reflexivity.
Defined.

Lemma POST_forwards_fields_not_id_witness :
  exists payload answer,
    calls (run in_memory (POST_api_comments (H := strict_pydantic) alice) hooked)
    = [Event (create_document "comment" (schema_of alice_in)) (Returns "0");
       Event (os_getenv "GOOGLE_APPS_SCRIPT_URL")
         (Some "https://script.example/exec");
       Event (requests_post "https://script.example/exec" payload 8) answer]
    /\ payload = CommentIn_model_dump alice_in
    /\ payload !! "id" = None.
Proof.
  apply (POST_forwards_fields_not_id (H := strict_pydantic) in_memory hooked
           (final (run in_memory
                     (perform (create_document "comment" (schema_of alice_in)))
                     hooked))
           alice alice_in "0" "https://script.example/exec").
  - reflexivity.
  - reflexivity.
  - reflexivity.
  - discriminate.
Defined.

Lemma GET_one_bad_document_fails_all_witness :
  exists detail,
    result (run in_memory (GET_api_comments (H := strict_pydantic) None) spoiled)
    = mkHttp 500 (JsonDetail detail).
Proof.
  apply (GET_one_bad_document_fails_all (H := strict_pydantic) in_memory spoiled
           None [alice_doc; null_name_doc]).
  - reflexivity.
  - right. left. left. reflexivity.
Defined.

Lemma GET_lists_what_was_stored_witness :
  result (run in_memory (GET_api_comments (H := strict_pydantic) None) archive)
  = mkHttp 200
      (JsonComments
         ((fun iv : value * Comment => out_of (py_str iv.1) iv.2)
          <$> [(VOther "65f0c0ffee",
                mkComment "Alice" "See you there!" (Some true) (Some 2) None)])).
Proof.
  apply (GET_lists_what_was_stored (H := strict_pydantic) in_memory archive None
           [alice_doc]).
  - reflexivity.
  - constructor; [|constructor].
    split; [reflexivity|]. repeat constructor.
Defined.

Lemma forwarder_keeps_short_text_witness :
  exists meta,
    result (run in_memory (forward_to_google_sheet (H := strict_pydantic) alice)
              cheerful) = Returns meta
    /\ meta !! "response" = Some (VStr (copies 100 "✅"))
    /\ meta !! "status" = Some (VInt 200)
    /\ meta !! "reason" = None.
Proof.
  apply (forwarder_keeps_short_text (H := strict_pydantic) in_memory cheerful
           alice "https://script.example/exec"
           (mkResponse 200 (copies 100 "✅"))).
  - reflexivity.
  - discriminate.
  - reflexivity.
  - vm_compute. lia.
Defined.

Lemma test_database_error_cut_witness :
  exists shown,
    test_database (H := strict_pydantic) (unreachable "connection refused ❌")
      !! "database"
    = Some (DStr ("⚠️  Connected but Error: " +:+ shown))
    /\ first_chars 50 "connection refused ❌" shown
    /\ test_database (H := strict_pydantic)
         (unreachable "connection refused ❌") !! "collections"
       = Some (DList []).
Proof.
  apply (test_database_error_cut (H := strict_pydantic)
           (unreachable "connection refused ❌")
           (Exception "connection refused ❌")
           "⚠️  Connected but Error: ").
  right. eexists. split; [reflexivity|]. split; reflexivity.
Defined.
